(** * Solana RPC node monitors: heartbeat forwarder and slot exporter

    A shallow embedding of the two monitoring scripts

      - [src/betterstack/solana/hearbeat.py]      (module [Heartbeat])
      - [src/prometheus_exporters/solana/exporter.py] (module [Exporter])

    Both scripts are sequential Python programs that talk to the network
    and, for the exporter, update a process-wide metrics registry.  They
    are embedded in a state-and-exception monad [M] over a [world] made of
    the log of outbound HTTP requests and the metrics registry.  What the
    network answers is not decided by the program: it is an oracle
    ([network]) giving the outcome of the k-th POST and of the k-th GET.

    Python values coming back from the network are JSON values ([json]);
    Python's dynamic checks ([in], subscripting, [.get], [-], [float]) are
    written out with the exception each one raises.  An exception leaves
    the world as it was when it was raised: registry updates made earlier
    in a cycle are kept, as mutation in place does in Python. *)

From stdpp Require Import gmap strings list fin_maps.
From Stdlib Require Import ZArith.

#[local] Set Warnings "-register-all".
#[local] Open Scope string_scope.
#[local] Open Scope list_scope.
#[local] Open Scope Z_scope.

(** ** Python values and exceptions *)

(** What [json.loads] / [response.json()] builds.  [JNull] is Python's
    [None], [JObj] a [dict], [JArr] a [list].  Numbers are kept as exact
    integers: slots and counts are integral, and a fractional number takes
    the same branches as an integer in every function below. *)
Inductive json :=
| JNull
| JBool (b : bool)
| JInt (z : Z)
| JStr (s : string)
| JArr (l : list json)
| JObj (d : gmap string json).

(** The exception classes the two scripts can meet.  The first three are
    subclasses of [requests.RequestException]; the others are builtins. *)
Inductive exn :=
| ConnectionError               (* any transport failure of requests.post/get *)
| HTTPError (status : Z)        (* raised by response.raise_for_status() *)
| JSONDecodeError               (* requests.exceptions.JSONDecodeError, from response.json();
                                   a RequestException since requests 2.27 *)
| KeyError (key : string)
| TypeError
| AttributeError
| ValueError
| OverflowError.

Inductive result (A : Type) :=
| Ok (a : A)
| Raised (e : exn).
Arguments Ok {A} a.
Arguments Raised {A} e.

(** [except requests.RequestException] *)
Definition is_RequestException (e : exn) : bool :=
  match e with
  | ConnectionError | HTTPError _ | JSONDecodeError => true
  | KeyError _ | TypeError | AttributeError | ValueError | OverflowError => false
  end.

(** [except Exception] *)
Definition is_Exception (e : exn) : bool := true.

(** [d[k]] on a [dict] *)
Definition dict_getitem {A} (d : gmap string A) (k : string) : result A :=
  match d !! k with
  | Some v => Ok v
  | None => Raised (KeyError k)
  end.

(** [needle in s] on two [str]: substring test *)
Fixpoint is_substring (needle s : string) : bool :=
  String.prefix needle s ||
  match s with
  | EmptyString => false
  | String _ s' => is_substring needle s'
  end.

Definition json_is_str (k : string) (v : json) : bool :=
  match v with
  | JStr s => String.eqb s k
  | _ => false
  end.

(** [k in v] for a [str] k: key membership on a dict, element membership
    on a list, substring on a str; the other values are not iterable. *)
Definition py_contains (k : string) (v : json) : result bool :=
  match v with
  | JObj d => Ok (bool_decide (is_Some (d !! k)))
  | JArr l => Ok (existsb (json_is_str k) l)
  | JStr s => Ok (is_substring k s)
  | JNull | JBool _ | JInt _ => Raised TypeError
  end.

(** [v[k]] for a [str] k: only a dict can be indexed by a string. *)
Definition py_getitem (v : json) (k : string) : result json :=
  match v with
  | JObj d => dict_getitem d k
  | JArr _ | JStr _ | JNull | JBool _ | JInt _ => Raised TypeError
  end.

(** [v.get(k)]: only a dict has the method; a missing key gives [None]. *)
Definition py_get (v : json) (k : string) : result json :=
  match v with
  | JObj d => Ok (default JNull (d !! k))
  | JArr _ | JStr _ | JNull | JBool _ | JInt _ => Raised AttributeError
  end.

(** [v is not None] *)
Definition is_not_None (v : json) : bool :=
  match v with
  | JNull => false
  | _ => true
  end.

(** The integer behind an [int] or a [bool] (a subclass of [int]). *)
Definition as_int (v : json) : option Z :=
  match v with
  | JInt z => Some z
  | JBool b => Some (Z.b2z b)
  | _ => None
  end.

(** [a - b] *)
Definition py_sub (a b : json) : result json :=
  match as_int a, as_int b with
  | Some x, Some y => Ok (JInt (x - y))
  | _, _ => Raised TypeError
  end.

(** [float(z)] on an [int]: the integer the nearest double stands for,
    ties going to the even mantissa, or [None] when that double would be
    2^1024 or beyond (OverflowError).  Integers up to 2^53 in magnitude
    come back unchanged; beyond, the 53 leading bits are kept. *)
Definition py_float_of_int (z : Z) : option Z :=
  let a := Z.abs z in
  if a <=? 2 ^ 53 then Some z
  else
    let e := Z.log2 a - 52 in
    let q := a / 2 ^ e in
    let rest := a mod 2 ^ e in
    let half := 2 ^ (e - 1) in
    let q' := if ((half <? rest) || ((rest =? half) && Z.odd q))%bool then q + 1 else q in
    let m := q' * 2 ^ e in
    if 2 ^ 1024 <=? m then None else Some (Z.sgn z * m).

(** ** The metrics registry (prometheus_client)

    One field per exported series.  A labelled gauge is a finite map from
    the [host] label to the value of that child; a child exists from the
    first [labels(...)] call on.  The client library keeps a double per
    child; a cell here holds the integer that double stands for: [set]
    stores the rounding [float] makes, and [inc] adds one, as the double
    does for every count below 2^53. *)
Record metrics := Metrics {
  solana_node_slot_number : gmap string Z;
  solana_reference_slot_number : Z;
  solana_slot_difference : gmap string Z;
  solana_node_slot_error_count : gmap string Z;
  solana_reference_slot_error_count : Z
}.

(** Registry at process start: unlabelled gauges at 0, no child yet. *)
Definition fresh_metrics : metrics := Metrics ∅ 0 ∅ ∅ 0.

(** A Python global bound to a labelled [Gauge]: how to read and write
    its children in the registry. *)
Record gauge_vec := GaugeVec {
  children : metrics → gmap string Z;
  with_children : gmap string Z → metrics → metrics
}.

(** A Python global bound to an unlabelled [Gauge]. *)
Record gauge := Gauge {
  value : metrics → Z;
  with_value : Z → metrics → metrics
}.

Definition NODE_SLOT_NUMBER : gauge_vec :=
  GaugeVec solana_node_slot_number
    (λ g m, Metrics g (solana_reference_slot_number m) (solana_slot_difference m)
              (solana_node_slot_error_count m) (solana_reference_slot_error_count m)).

Definition REFERENCE_SLOT_NUMBER : gauge :=
  Gauge solana_reference_slot_number
    (λ v m, Metrics (solana_node_slot_number m) v (solana_slot_difference m)
              (solana_node_slot_error_count m) (solana_reference_slot_error_count m)).

Definition SLOT_DIFFERENCE : gauge_vec :=
  GaugeVec solana_slot_difference
    (λ g m, Metrics (solana_node_slot_number m) (solana_reference_slot_number m) g
              (solana_node_slot_error_count m) (solana_reference_slot_error_count m)).

Definition NODE_SLOT_NUMBER_ERROR_COUNT : gauge_vec :=
  GaugeVec solana_node_slot_error_count
    (λ g m, Metrics (solana_node_slot_number m) (solana_reference_slot_number m)
              (solana_slot_difference m) g (solana_reference_slot_error_count m)).

Definition REFERENCE_SLOT_NUMBER_ERROR_COUNT : gauge :=
  Gauge solana_reference_slot_error_count
    (λ v m, Metrics (solana_node_slot_number m) (solana_reference_slot_number m)
              (solana_slot_difference m) (solana_node_slot_error_count m) v).

(** [g.labels(host=l)]: the child for [l], created at 0 when new. *)
Definition labels (g : gmap string Z) (l : string) : gmap string Z :=
  match g !! l with
  | Some _ => g
  | None => <[l := 0]> g
  end.

(** ** The world and the monad *)

Inductive request :=
| POST (url : string) (method : string)   (* JSON-RPC call of [method] *)
| GET (url : string).

Record world := World {
  sent : list request;     (* outbound requests so far, oldest first *)
  registry : metrics       (* the exporter's gauges; the heartbeat script has none *)
}.

Definition M (A : Type) : Type := world → world * result A.

#[global] Instance M_ret : MRet M := λ A a w, (w, Ok a).

#[global] Instance M_bind : MBind M := λ A B f c w,
  match c w with
  | (w', Ok a) => f a w'
  | (w', Raised e) => (w', Raised e)
  end.

(** A pure step that may raise. *)
Definition lift {A} (r : result A) : M A := λ w, (w, r).

(** [try: body  except <class> as e: handler] *)
Definition try_except {A} (body : M A) (catches : exn → bool) (handler : exn → M A) : M A :=
  λ w,
    match body w with
    | (w', Ok a) => (w', Ok a)
    | (w', Raised e) => if catches e then handler e w' else (w', Raised e)
    end.

(** [for x in l: body] *)
Fixpoint for_each {A} (body : A → M unit) (l : list A) : M unit :=
  match l with
  | [] => mret tt
  | x :: l' => body x ;; for_each body l'
  end.

Definition update_registry (f : metrics → metrics) : M unit :=
  λ w, (World (sent w) (f (registry w)), Ok tt).

(** ** The network (requests) *)

(** What [response.json()] finds in the body. *)
Inductive body :=
| NotJson
| Json (j : json).

Record response := Response {
  status_code : Z;
  content : body
}.

(** What one call of [requests.post] / [requests.get] comes to. *)
Inductive http_outcome :=
| TransportFailure            (* no response: refused, reset, timed out, bad URL ... *)
| Answer (r : response).

(** The oracle: the outcome of the k-th POST and of the k-th GET the
    process makes (k counts from 0 since process start). *)
Record network := Network {
  post_reply : nat → http_outcome;
  get_reply : nat → http_outcome
}.

Definition is_post (r : request) : bool :=
  match r with POST _ _ => true | GET _ => false end.

Definition is_get (r : request) : bool :=
  match r with POST _ _ => false | GET _ => true end.

Definition count_posts (log : list request) : nat := length (filter is_post log).
Definition count_gets (log : list request) : nat := length (filter is_get log).

Definition perform (req : request) (reply : http_outcome) : M response :=
  λ w,
    let w' := World (sent w ++ [req]) (registry w) in
    match reply with
    | TransportFailure => (w', Raised ConnectionError)
    | Answer r => (w', Ok r)
    end.

(** [requests.post(url, headers=..., data=json.dumps({"jsonrpc": "2.0",
    "id": 1, "method": method}))] *)
Definition requests_post (net : network) (url method : string) : M response :=
  λ w, perform (POST url method) (post_reply net (count_posts (sent w))) w.

(** [requests.get(url)] *)
Definition requests_get (net : network) (url : string) : M response :=
  λ w, perform (GET url) (get_reply net (count_gets (sent w))) w.

(** [response.raise_for_status()]: HTTPError for 4xx and 5xx. *)
Definition raise_for_status (r : response) : result unit :=
  if bool_decide (400 ≤ status_code r < 600) then Raised (HTTPError (status_code r))
  else Ok tt.

(** [response.json()] *)
Definition response_json (r : response) : result json :=
  match content r with
  | NotJson => Raised JSONDecodeError
  | Json j => Ok j
  end.

(** A network that gives the same outcome to every request, and the world
    of a process that has done nothing yet: used to name what a probe
    returns for one given outcome. *)
Definition always (o : http_outcome) : network := Network (λ _, o) (λ _, o).
Definition idle : world := World [] fresh_metrics.

(** A host entry of the config file: a dict with string values. *)
Abbreviation host := (gmap string string).

(** ** hearbeat.py *)
Module Heartbeat.

Record config := Config {
  hosts : list host
}.

Section WithNetwork.
Variable net : network.

Definition send_heartbeat (url : string) : M unit :=
  try_except
    (response ← requests_get net url;
     lift (raise_for_status response))
    is_RequestException
    (λ e, mret tt).

Definition check_rpc_call (host : host) : M bool :=
  url ← lift (dict_getitem host "rpc_url");
  try_except
    (response ← requests_post net url "getHealth";
     lift (raise_for_status response) ;;
     result ← lift (response_json response);
     has_error ← lift (py_contains "error" result);
     if has_error : bool then
       lift (py_getitem result "error") ;;
       mret false
     else
       lift (dict_getitem host "host") ;;
       lift (py_get result "result") ;;
       mret true)
    is_RequestException
    (λ e, mret false).

Definition job (config : config) : M unit :=
  for_each
    (λ host,
       healthy ← check_rpc_call host;
       if healthy : bool then
         endpoint ← lift (dict_getitem host "heartbeat_endpoint");
         send_heartbeat endpoint
       else mret tt)
    (hosts config).

(** [while True: time.sleep(30); job(config)], cut after [n] rounds. *)
Fixpoint forever (config : config) (n : nat) : M unit :=
  match n with
  | O => mret tt
  | S n' => job config ;; forever config n'
  end.

(** The script after the config is loaded: one job at once, then the loop. *)
Definition main (config : config) (n : nat) : M unit :=
  job config ;; forever config n.

End WithNetwork.

(** What [check_rpc_call] hands back for [host] when the network's answer
    to its POST is [o]: the probe run on its own. *)
Definition health_reading (host : host) (o : http_outcome) : result bool :=
  (check_rpc_call (always o) host idle).2.

(** The probe reported healthy: it returned [True]. *)
Definition reports_healthy (r : result bool) : bool :=
  match r with
  | Ok true => true
  | Ok false | Raised _ => false
  end.

(** The requests one host accounts for in a cycle, as section 4.3 of the
    specification words it: the probe, then one ping when healthy. *)
Definition host_requests_spec (host : host) (healthy : bool) : list request :=
  POST (default "" (host !! "rpc_url")) "getHealth" ::
  (if healthy then [GET (default "" (host !! "heartbeat_endpoint"))] else []).

(** The same for a run of hosts, the first of which meets the [p]-th
    POST: host by host in the configured order. *)
Definition cycle_requests_spec (net : network) (p : nat) (hs : list host) : list request :=
  concat
    (imap (λ k h,
             host_requests_spec h
               (reports_healthy (health_reading h (post_reply net (p + k)%nat))))
          hs).

(** How many hosts at the head of [hs] get a verdict from their probe, the
    first of them meeting the [p]-th POST: the cycle goes no further than
    the first host whose probe raises. *)
Fixpoint probes_returned (net : network) (p : nat) (hs : list host) : nat :=
  match hs with
  | [] => O
  | h :: hs' =>
      match health_reading h (post_reply net p) with
      | Ok _ => S (probes_returned net (S p) hs')
      | Raised _ => O
      end
  end.

(** A host entry with the three keys of the heartbeat config format. *)
Definition well_formed (h : host) : Prop :=
  is_Some (h !! "rpc_url") ∧ is_Some (h !! "host") ∧
  is_Some (h !! "heartbeat_endpoint").

(** The outcomes the probe is written for: no response, an error status,
    a body that is not JSON, or a JSON object. *)
Definition tolerated (o : http_outcome) : bool :=
  match o with
  | TransportFailure => true
  | Answer r =>
      bool_decide (400 ≤ status_code r < 600) ||
      match content r with
      | NotJson => true
      | Json (JObj _) => true
      | Json _ => false
      end
  end.
End Heartbeat.

(** ** exporter.py *)
Module Exporter.

Record config := Config {
  reference_endpoint : string;
  hosts : list host
}.

(** What the top-level loop has come to after some rounds. *)
Inductive loop_status :=
| Running                 (* still inside [while True] *)
| Stopped (e : exn).      (* [except Exception as e]: logged, the script ends *)

Section WithNetwork.
Variable net : network.

(** Python's [float(s)] on a [str]: the number read, or [None] when the
    text is not a numeral (ValueError). *)
Variable float_of_str : string → option Z.

(** [float(v)], the conversion [Gauge.set] applies to its argument. *)
Definition py_float (v : json) : result Z :=
  match v with
  | JInt z =>
      match py_float_of_int z with
      | Some x => Ok x
      | None => Raised OverflowError
      end
  | JBool b => Ok (Z.b2z b)
  | JStr s =>
      match float_of_str s with
      | Some z => Ok z
      | None => Raised ValueError
      end
  | JNull | JArr _ | JObj _ => Raised TypeError
  end.

(** [g.set(v)] on an unlabelled gauge. *)
Definition gauge_set (g : gauge) (v : json) : M unit :=
  x ← lift (py_float v);
  update_registry (with_value g x).

(** [g.inc()] on an unlabelled gauge. *)
Definition gauge_inc (g : gauge) : M unit :=
  update_registry (λ m, with_value g (value g m + 1) m).

(** [g.labels(host=l).set(v)]: the child is created first, then [v] is
    converted and stored. *)
Definition labels_set (g : gauge_vec) (l : string) (v : json) : M unit :=
  update_registry (λ m, with_children g (labels (children g m) l) m) ;;
  x ← lift (py_float v);
  update_registry (λ m, with_children g (<[l := x]> (children g m)) m).

(** [g.labels(host=l).inc()] *)
Definition labels_inc (g : gauge_vec) (l : string) : M unit :=
  update_registry (λ m, with_children g (labels (children g m) l) m) ;;
  update_registry
    (λ m, with_children g (<[l := default 0 (children g m !! l) + 1]> (children g m)) m).

Definition get_slot_number (url : string) : M json :=
  try_except
    (response ← requests_post net url "getSlot";
     lift (raise_for_status response) ;;
     body ← lift (response_json response);
     lift (py_get body "result"))
    is_RequestException
    (λ e, mret JNull).

(** The body of [for host in config["hosts"]]. *)
Definition check_host (reference_slot : json) (host : host) : M unit :=
  node_url ← lift (dict_getitem host "rpc_url");
  node_slot ← get_slot_number node_url;
  if is_not_None node_slot then
    label ← lift (dict_getitem host "host");
    labels_set NODE_SLOT_NUMBER label node_slot ;;
    slot_difference ← lift (py_sub reference_slot node_slot);
    label ← lift (dict_getitem host "host");
    labels_set SLOT_DIFFERENCE label slot_difference ;;
    label ← lift (dict_getitem host "host");      (* the f-string of the log line *)
    mret tt
  else
    label ← lift (dict_getitem host "host");      (* the f-string of the log line *)
    label ← lift (dict_getitem host "host");
    labels_inc NODE_SLOT_NUMBER_ERROR_COUNT label.

Definition check_node_slots (config : config) : M unit :=
  let reference_url := reference_endpoint config in
  reference_slot ← get_slot_number reference_url;
  if is_not_None reference_slot then
    gauge_set REFERENCE_SLOT_NUMBER reference_slot ;;
    for_each (check_host reference_slot) (hosts config)
  else
    gauge_inc REFERENCE_SLOT_NUMBER_ERROR_COUNT.

Definition job (config : config) : M unit :=
  check_node_slots config.

(** [schedule.run_pending()] finding the job due, [n] times over. *)
Fixpoint run_pending (config : config) (n : nat) : M unit :=
  match n with
  | O => mret tt
  | S n' => job config ;; run_pending config n'
  end.

(** [try: while True: ...  except Exception as e: logging.critical(...)],
    cut after the job has come due [n] times.  An interruption from
    outside (KeyboardInterrupt) is not part of the model. *)
Definition main (config : config) (n : nat) : M loop_status :=
  try_except
    (run_pending config n ;; mret Running)
    is_Exception
    (λ e, mret (Stopped e)).

End WithNetwork.

(** What [get_slot_number] hands back when the network's answer to its
    POST is [o]: the probe run on its own.  [JNull] is "no value". *)
Definition slot_reading (o : http_outcome) : result json :=
  (get_slot_number (always o) "" idle).2.

(** The outcomes the probe is written for: no response, an error status,
    a body that is not JSON, or a JSON object whose ["result"] is null,
    missing, or an integer below 2^1022 in magnitude (so that no slot and
    no difference of two slots is beyond the doubles). *)
Definition tolerated (o : http_outcome) : bool :=
  match o with
  | TransportFailure => true
  | Answer r =>
      bool_decide (400 ≤ status_code r < 600) ||
      match content r with
      | NotJson => true
      | Json (JObj d) =>
          match d !! "result" with
          | None | Some JNull => true
          | Some (JInt z) => Z.abs z <? 2 ^ 1022
          | Some _ => false
          end
      | Json _ => false
      end
  end.

(** [float] takes the integer [z]: no OverflowError. *)
Definition storable (z : Z) : Prop := is_Some (py_float_of_int z).

(** A host's probe after which the cycle goes on, the reference being at
    [r]: no value, or an integer [z] such that [float] takes both [z] and
    [r - z]. *)
Definition served (r : Z) (reading : result json) : Prop :=
  reading = Ok JNull ∨
  ∃ z : Z, reading = Ok (JInt z) ∧ storable z ∧ storable (r - z).

(** What a host's turn does to the children of one labelled gauge:
    [.labels(l).set(...)] either stores a number or, when [float] raises,
    stops after [.labels(l)] has made sure the child exists. *)
Inductive child_op :=
| Write (l : string) (x : Z)
| Touch (l : string).

Definition apply_op (g : gmap string Z) (o : child_op) : gmap string Z :=
  match o with
  | Write l x => <[l := x]> g
  | Touch l => labels g l
  end.

Definition apply_ops (os : list child_op) (g : gmap string Z) : gmap string Z :=
  foldl apply_op g os.

(** The operations on the slot gauge and on the difference gauge that a
    run of hosts makes, host by host, when the reference is at [r] and the
    hosts labelled [lv.*1] answer with the integers [lv.*2]: the run stops
    at the first value, or difference, that [float] does not take. *)
Fixpoint slot_ops (r : Z) (lv : list (string * Z)) : list child_op * list child_op :=
  match lv with
  | [] => ([], [])
  | (l, v) :: lv' =>
      match py_float_of_int v with
      | None => ([Touch l], [])
      | Some x =>
          match py_float_of_int (r - v) with
          | None => ([Write l x], [Touch l])
          | Some d =>
              (Write l x :: (slot_ops r lv').1, Write l d :: (slot_ops r lv').2)
          end
      end
  end.

(** The registry after a cycle in which the reference answered with the
    integer [r] and the hosts with the integers of [lv]. *)
Definition cycle_effect (r : Z) (lv : list (string * Z)) (m : metrics) : metrics :=
  match py_float_of_int r with
  | None => m
  | Some x =>
      Metrics (apply_ops (slot_ops r lv).1 (solana_node_slot_number m))
              x
              (apply_ops (slot_ops r lv).2 (solana_slot_difference m))
              (solana_node_slot_error_count m)
              (solana_reference_slot_error_count m)
  end.

(** A host entry that names its RPC endpoint and its label. *)
Definition well_formed (h : host) : Prop :=
  is_Some (h !! "rpc_url") ∧ is_Some (h !! "host").

(** Some host of [hs] carries the label [l]. *)
Definition carried (hs : list host) (l : string) : Prop :=
  ∃ h, h ∈ hs ∧ h !! "host" = Some l.

(** No error counter went down or disappeared between [m] and [m']. *)
Definition counters_grow (m m' : metrics) : Prop :=
  solana_reference_slot_error_count m ≤ solana_reference_slot_error_count m' ∧
  ∀ (l : string) (v : Z),
    solana_node_slot_error_count m !! l = Some v →
    ∃ v', solana_node_slot_error_count m' !! l = Some v' ∧ v ≤ v'.

(** Between [m] and [m'] only children labelled within [L] were written;
    the two reference gauges were not. *)
Definition touches_only (L : string → Prop) (m m' : metrics) : Prop :=
  solana_reference_slot_number m' = solana_reference_slot_number m ∧
  solana_reference_slot_error_count m' = solana_reference_slot_error_count m ∧
  ∀ l : string, ¬ L l →
    solana_node_slot_number m' !! l = solana_node_slot_number m !! l ∧
    solana_slot_difference m' !! l = solana_slot_difference m !! l ∧
    solana_node_slot_error_count m' !! l = solana_node_slot_error_count m !! l.

(** Both at once: what a run over hosts labelled within [L] may do. *)
Definition evolves (L : string → Prop) (m m' : metrics) : Prop :=
  touches_only L m m' ∧ counters_grow m m'.
End Exporter.

(** Every run of [c], whether it returns or raises, takes the registry to
    one that [R] relates to the registry it started from. *)
Definition preserves {A} (R : metrics → metrics → Prop) (c : M A) : Prop :=
  ∀ w, R (registry w) (registry (c w).1).

(** The same for a relation between whole worlds, request log included. *)
Definition keeps {A} (R : world → world → Prop) (c : M A) : Prop :=
  ∀ w, R w (c w).1.

(** From [w] to [w'] the log only grew, by requests that all satisfy [P]. *)
Definition sends_only (P : request → Prop) (w w' : world) : Prop :=
  ∃ seg, sent w' = sent w ++ seg ∧ Forall P seg.

(** The requests the exporter's config allows: a [getSlot] call to the
    reference endpoint or to the RPC URL of a configured host. *)
Definition exporter_may_send (cfg : Exporter.config) (req : request) : Prop :=
  ∃ u, req = POST u "getSlot" ∧
       (u = Exporter.reference_endpoint cfg ∨
        ∃ h, h ∈ Exporter.hosts cfg ∧ h !! "rpc_url" = Some u).

(** The requests the heartbeat config allows: a [getHealth] call to the
    RPC URL of a configured host, or a GET to the heartbeat endpoint of
    one. *)
Definition heartbeat_may_send (cfg : Heartbeat.config) (req : request) : Prop :=
  ∃ h u, h ∈ Heartbeat.hosts cfg ∧
         ((h !! "rpc_url" = Some u ∧ req = POST u "getHealth") ∨
          (h !! "heartbeat_endpoint" = Some u ∧ req = GET u)).

(** From [w] to [w'] nothing was sent. *)
Definition same_log (w w' : world) : Prop := sent w' = sent w.

(** The children labelled [l] of the three labelled gauges are the same
    in [m] and [m']. *)
Definition same_children_at (l : string) (m m' : metrics) : Prop :=
  solana_node_slot_number m' !! l = solana_node_slot_number m !! l ∧
  solana_slot_difference m' !! l = solana_slot_difference m !! l ∧
  solana_node_slot_error_count m' !! l = solana_node_slot_error_count m !! l.

(** ** Sample inputs *)

(** An HTTP 200 answer carrying the JSON value [j]. *)
Definition answer_200 (j : json) : http_outcome := Answer (Response 200 (Json j)).

(** A well-formed [getSlot] answer: [{"jsonrpc": "2.0", "result": z, "id": 1}]. *)
Definition slot_answer (z : Z) : http_outcome :=
  answer_200 (JObj {[ "jsonrpc" := JStr "2.0"; "result" := JInt z; "id" := JInt 1 ]}).

(** [{"result": "ok"}] and [{"error": {"code": -1}}], scenarios 3 and 4. *)
Definition health_ok : http_outcome :=
  answer_200 (JObj {[ "result" := JStr "ok" ]}).
Definition health_error : http_outcome :=
  answer_200 (JObj {[ "error" := JObj {[ "code" := JInt (-1) ]} ]}).

Definition host_a : host :=
  {[ "host" := "a"; "rpc_url" := "http://a:8899";
     "heartbeat_endpoint" := "http://beat/a" ]}.
Definition host_b : host :=
  {[ "host" := "b"; "rpc_url" := "http://b:8899";
     "heartbeat_endpoint" := "http://beat/b" ]}.
(** An entry without its ["heartbeat_endpoint"]. *)
Definition host_c : host :=
  {[ "host" := "c"; "rpc_url" := "http://c:8899" ]}.

Definition sample_heartbeat_config : Heartbeat.config :=
  Heartbeat.Config [host_a; host_b].
Definition sample_exporter_config : Exporter.config :=
  Exporter.Config "http://ref:8899" [host_a; host_b].

(** A network whose POSTs are answered from the list [posts], in order
    (nothing answers once the list is spent) and whose GETs all get a 200. *)
Definition scripted (posts : list http_outcome) : network :=
  Network (λ k, default TransportFailure (posts !! k))
          (λ _, Answer (Response 200 NotJson)).

(** * Properties *)

(** ** Running the monad *)

Lemma bind_run {A B} (c : M A) (f : A → M B) (w : world) :
  (c ≫= f) w =
  match c w with
  | (w', Ok a) => f a w'
  | (w', Raised e) => (w', Raised e)
  end.
Proof. reflexivity. Qed.

Lemma bind_lift_ok {A B} (a : A) (f : A → M B) (w : world) :
  (lift (Ok a) ≫= f) w = f a w.
Proof. reflexivity. Qed.

Lemma bind_lift_raised {A B} (e : exn) (f : A → M B) (w : world) :
  (lift (Raised e) ≫= f) w = (w, Raised e).
Proof. reflexivity. Qed.

Lemma dict_getitem_some {A} (d : gmap string A) (k : string) (v : A) :
  d !! k = Some v → dict_getitem d k = Ok v.
Proof. intros H. unfold dict_getitem. by rewrite H. Qed.

Lemma dict_getitem_none {A} (d : gmap string A) (k : string) :
  d !! k = None → dict_getitem d k = @Raised A (KeyError k).
Proof. intros H. unfold dict_getitem. by rewrite H. Qed.

(** [for_each] over a concatenation: the second run starts where the first
    one stopped, unless the first one raised. *)
Lemma for_each_app {A} (body : A → M unit) (l1 l2 : list A) (w : world) :
  for_each body (l1 ++ l2) w =
  match for_each body l1 w with
  | (w', Ok _) => for_each body l2 w'
  | (w', Raised e) => (w', Raised e)
  end.
Proof.
  revert w. induction l1 as [|x l1 IH]; intros w; simpl.
  - reflexivity.
  - rewrite !bind_run. destruct (body x w) as [w' [[]|e]]; [apply IH | reflexivity].
Qed.

Lemma count_posts_snoc_post (log : list request) (url method : string) :
  count_posts (log ++ [POST url method]) = S (count_posts log).
Proof.
  unfold count_posts. rewrite filter_app, length_app. simpl. lia.
Qed.

Lemma count_posts_snoc_get (log : list request) (url : string) :
  count_posts (log ++ [GET url]) = count_posts log.
Proof.
  unfold count_posts. rewrite filter_app, length_app. simpl. lia.
Qed.

(** ** The two probes *)

(** Case analysis along every [match] of a monadic program. *)
Ltac run_cases :=
  repeat (cbn -[bool_decide count_posts];
          unfold mbind, M_bind, mret, M_ret, lift, try_except;
          match goal with
          | |- context [match ?x with _ => _ end] =>
              lazymatch x with
              | context [match _ with _ => _ end] => fail
              | _ => destruct x eqn:?
              end
          end);
  cbn; try reflexivity; try congruence.

(** [get_slot_number] makes exactly one POST and returns what
    [slot_reading] says for the outcome of that POST; it touches nothing
    else. *)
Lemma get_slot_number_run (net : network) (url : string) (w : world) :
  Exporter.get_slot_number net url w =
  (World (sent w ++ [POST url "getSlot"]) (registry w),
   Exporter.slot_reading (post_reply net (count_posts (sent w)))).
Proof.
  unfold Exporter.slot_reading, Exporter.get_slot_number, requests_post, perform,
    raise_for_status, response_json, always, idle.
  run_cases.
Qed.

(** The same for [check_rpc_call], on a host entry that names its RPC URL. *)
Lemma check_rpc_call_run (net : network) (h : host) (url : string) (w : world) :
  h !! "rpc_url" = Some url →
  Heartbeat.check_rpc_call net h w =
  (World (sent w ++ [POST url "getHealth"]) (registry w),
   Heartbeat.health_reading h (post_reply net (count_posts (sent w)))).
Proof.
  intros Hurl.
  unfold Heartbeat.health_reading, Heartbeat.check_rpc_call.
  rewrite (dict_getitem_some _ _ _ Hurl), !bind_lift_ok.
  unfold requests_post, perform, raise_for_status, response_json, always, idle.
  run_cases.
Qed.

(** The builtins raise no [RequestException]. *)
Lemma py_get_raises (j : json) (k : string) (e : exn) :
  py_get j k = Raised e → is_RequestException e = false.
Proof. destruct j; intros; by simplify_eq/=. Qed.

Lemma py_contains_raises (j : json) (k : string) (e : exn) :
  py_contains k j = Raised e → is_RequestException e = false.
Proof. destruct j; intros; by simplify_eq/=. Qed.

Lemma py_getitem_raises (j : json) (k : string) (e : exn) :
  py_getitem j k = Raised e → is_RequestException e = false.
Proof.
  destruct j; intros H; simplify_eq/=; try done.
  unfold dict_getitem in H. destruct (d !! k); by simplify_eq.
Qed.

Ltac not_a_request_exception :=
  match goal with
  | H : py_get _ _ = Raised ?e, H' : is_RequestException ?e = true |- _ =>
      apply py_get_raises in H; congruence
  | H : py_contains _ _ = Raised ?e, H' : is_RequestException ?e = true |- _ =>
      apply py_contains_raises in H; congruence
  | H : py_getitem _ _ = Raised ?e, H' : is_RequestException ?e = true |- _ =>
      apply py_getitem_raises in H; congruence
  end.

(** The two readings, spelled out by cases on the outcome. *)
Lemma slot_reading_cases (o : http_outcome) :
  Exporter.slot_reading o =
  match o with
  | TransportFailure => Ok JNull
  | Answer r =>
      if bool_decide (400 ≤ status_code r < 600) then Ok JNull
      else match content r with
           | NotJson => Ok JNull
           | Json j => py_get j "result"
           end
  end.
Proof.
  unfold Exporter.slot_reading, Exporter.get_slot_number, requests_post, perform,
    raise_for_status, response_json, always, idle.
  run_cases; not_a_request_exception.
Qed.

Lemma health_reading_cases (h : host) (url label : string) (o : http_outcome) :
  h !! "rpc_url" = Some url →
  h !! "host" = Some label →
  Heartbeat.health_reading h o =
  match o with
  | TransportFailure => Ok false
  | Answer r =>
      if bool_decide (400 ≤ status_code r < 600) then Ok false
      else match content r with
           | NotJson => Ok false
           | Json j =>
               match py_contains "error" j with
               | Ok true =>
                   match py_getitem j "error" with
                   | Ok _ => Ok false
                   | Raised e => Raised e
                   end
               | Ok false =>
                   match py_get j "result" with
                   | Ok _ => Ok true
                   | Raised e => Raised e
                   end
               | Raised e => Raised e
               end
           end
  end.
Proof.
  intros Hurl Hlabel.
  unfold Heartbeat.health_reading, Heartbeat.check_rpc_call.
  rewrite (dict_getitem_some _ _ _ Hurl), (dict_getitem_some _ _ _ Hlabel), !bind_lift_ok.
  unfold requests_post, perform, raise_for_status, response_json, always, idle.
  run_cases; not_a_request_exception.
Qed.

(** *** getSlot *)

(** C6 (as amended).  [get_slot_number] makes one POST and gives no value
    ([None]), without raising, on a transport failure, on a 4xx/5xx status
    and on a body that is not JSON.  On any other status with a JSON object
    for a body it returns the object's ["result"] when that is an integer,
    and no value when ["result"] is missing or null. *)
Theorem get_slot_number_returns (net : network) (url : string) (w : world) :
  let o := post_reply net (count_posts (sent w)) in
  let w' := World (sent w ++ [POST url "getSlot"]) (registry w) in
  (o = TransportFailure → Exporter.get_slot_number net url w = (w', Ok JNull)) ∧
  (∀ r, o = Answer r → 400 ≤ status_code r < 600 →
        Exporter.get_slot_number net url w = (w', Ok JNull)) ∧
  (∀ r, o = Answer r → content r = NotJson →
        Exporter.get_slot_number net url w = (w', Ok JNull)) ∧
  (∀ r d s, o = Answer r → ¬ (400 ≤ status_code r < 600) → content r = Json (JObj d) →
        d !! "result" = Some (JInt s) →
        Exporter.get_slot_number net url w = (w', Ok (JInt s))) ∧
  (∀ r d, o = Answer r → ¬ (400 ≤ status_code r < 600) → content r = Json (JObj d) →
        d !! "result" = None ∨ d !! "result" = Some JNull →
        Exporter.get_slot_number net url w = (w', Ok JNull)).
Proof.
  intros o w'. rewrite get_slot_number_run, slot_reading_cases. fold o. subst w'.
  repeat split.
  - by intros ->.
  - intros r -> Hst. by rewrite bool_decide_eq_true_2.
  - intros r -> Hbody. rewrite Hbody. by case_bool_decide.
  - intros r d s -> Hst Hbody Hres. rewrite bool_decide_eq_false_2, Hbody by done.
    cbn. by rewrite Hres.
  - intros r d -> Hst Hbody Hres. rewrite bool_decide_eq_false_2, Hbody by done.
    cbn. by destruct Hres as [-> | ->].
Qed.

Lemma get_slot_number_returns_witness :
  Exporter.get_slot_number (always (slot_answer 998)) "http://a:8899" idle =
  (World [POST "http://a:8899" "getSlot"] fresh_metrics, Ok (JInt 998)).
Proof.
  pose (d := {[ "jsonrpc" := JStr "2.0"; "result" := JInt 998; "id" := JInt 1 ]}
             : gmap string json).
  apply (proj1 (proj2 (proj2 (proj2
    (get_slot_number_returns (always (slot_answer 998)) "http://a:8899" idle))))
    (Response 200 (Json (JObj d))) d 998).
  - reflexivity.
  - simpl. lia.
  - reflexivity.
  - reflexivity.
Defined.

(** C6, as first stated, fails on a malformed ["result"]: the field comes
    back as it is, here a string, and is neither an integer nor "no
    value". *)
Lemma get_slot_number_malformed_result :
  (Exporter.get_slot_number
     (always (answer_200 (JObj {[ "result" := JStr "abc" ]}))) "http://a:8899" idle).2
  = Ok (JStr "abc").
Proof. reflexivity. Qed.

(** *** getHealth *)

(** C5 (as amended).  On a host entry that names its RPC URL and its label,
    [check_rpc_call] makes one POST and returns without raising:
    [False] on a transport failure, on a 4xx/5xx status and on a body that
    is not JSON; on any other status with a JSON object for a body,
    [True] exactly when the object has no top-level ["error"] key. *)
Theorem check_rpc_call_verdict (net : network) (h : host) (url label : string) (w : world) :
  h !! "rpc_url" = Some url →
  h !! "host" = Some label →
  let o := post_reply net (count_posts (sent w)) in
  let w' := World (sent w ++ [POST url "getHealth"]) (registry w) in
  (o = TransportFailure → Heartbeat.check_rpc_call net h w = (w', Ok false)) ∧
  (∀ r, o = Answer r → 400 ≤ status_code r < 600 →
        Heartbeat.check_rpc_call net h w = (w', Ok false)) ∧
  (∀ r, o = Answer r → content r = NotJson →
        Heartbeat.check_rpc_call net h w = (w', Ok false)) ∧
  (∀ r d, o = Answer r → ¬ (400 ≤ status_code r < 600) → content r = Json (JObj d) →
        Heartbeat.check_rpc_call net h w =
        (w', Ok (bool_decide (d !! "error" = None)))).
Proof.
  intros Hurl Hlabel o w'.
  rewrite (check_rpc_call_run _ _ _ _ Hurl), (health_reading_cases _ _ _ _ Hurl Hlabel).
  fold o. subst w'.
  repeat split.
  - by intros ->.
  - intros r -> Hst. by rewrite bool_decide_eq_true_2.
  - intros r -> Hbody. rewrite Hbody. by case_bool_decide.
  - intros r d -> Hst Hbody. rewrite bool_decide_eq_false_2, Hbody by done.
    cbn. unfold dict_getitem. destruct (d !! "error") as [v|] eqn:E.
    + rewrite bool_decide_eq_true_2 by eauto. by rewrite bool_decide_eq_false_2.
    + rewrite bool_decide_eq_false_2 by (by intros [? ?]). by rewrite bool_decide_eq_true_2.
Qed.

Lemma check_rpc_call_verdict_witness :
  Heartbeat.check_rpc_call (always health_ok) host_a idle =
  (World [POST "http://a:8899" "getHealth"] fresh_metrics, Ok true).
Proof.
  pose (d := {[ "result" := JStr "ok" ]} : gmap string json).
  apply (proj2 (proj2 (proj2
    (check_rpc_call_verdict (always health_ok) host_a "http://a:8899" "a" idle
       eq_refl eq_refl)))
    (Response 200 (Json (JObj d))) d).
  - reflexivity.
  - simpl. lia.
  - reflexivity.
Defined.

(** C5, as first stated, fails twice over: a 200 answer whose body is the
    JSON number 5 makes the probe raise [TypeError] past its caller, and a
    300 answer (not 2xx) with an object for a body is reported healthy. *)
Lemma check_rpc_call_counterexample :
  (Heartbeat.check_rpc_call (always (answer_200 (JInt 5))) host_a idle).2
    = Raised TypeError ∧
  (Heartbeat.check_rpc_call
     (always (Answer (Response 300 (Json (JObj ∅))))) host_a idle).2
    = Ok true.
Proof. split; reflexivity. Qed.

(** ** The heartbeat cycle *)

(** [send_heartbeat] makes one GET and returns, whatever comes back. *)
Lemma send_heartbeat_run (net : network) (url : string) (w : world) :
  Heartbeat.send_heartbeat net url w =
  (World (sent w ++ [GET url]) (registry w), Ok tt).
Proof.
  unfold Heartbeat.send_heartbeat, requests_get, perform, raise_for_status.
  run_cases.
Qed.

Lemma count_posts_app (l1 l2 : list request) :
  count_posts (l1 ++ l2) = (count_posts l1 + count_posts l2)%nat.
Proof. unfold count_posts. by rewrite filter_app, length_app. Qed.

Lemma count_posts_host_requests (h : host) (b : bool) :
  count_posts (Heartbeat.host_requests_spec h b) = 1%nat.
Proof. by destruct b. Qed.

Lemma cycle_requests_spec_cons (net : network) (p : nat) (h : host) (hs : list host) :
  Heartbeat.cycle_requests_spec net p (h :: hs) =
  Heartbeat.host_requests_spec h
    (Heartbeat.reports_healthy (Heartbeat.health_reading h (post_reply net p)))
  ++ Heartbeat.cycle_requests_spec net (S p) hs.
Proof.
  unfold Heartbeat.cycle_requests_spec. cbn [imap concat].
  rewrite Nat.add_0_r. f_equal. f_equal. apply imap_ext. intros k x _. cbn.
  by rewrite Nat.add_succ_r.
Qed.

Lemma count_posts_cycle_requests (net : network) (p : nat) (hs : list host) :
  count_posts (Heartbeat.cycle_requests_spec net p hs) = length hs.
Proof.
  revert p. induction hs as [|h hs IH]; intros p; [reflexivity|].
  rewrite cycle_requests_spec_cons, count_posts_app, count_posts_host_requests, IH.
  reflexivity.
Qed.

(** One host of the cycle whose probe reports: the probe, then a ping to
    the host's endpoint when the report is healthy. *)
Lemma job_host_run (net : network) (h : host) (b : bool) (w : world) :
  Heartbeat.well_formed h →
  Heartbeat.health_reading h (post_reply net (count_posts (sent w))) = Ok b →
  (healthy ← Heartbeat.check_rpc_call net h;
   if healthy : bool then
     endpoint ← lift (dict_getitem h "heartbeat_endpoint");
     Heartbeat.send_heartbeat net endpoint
   else mret tt) w =
  (World (sent w ++ Heartbeat.host_requests_spec h b) (registry w), Ok tt).
Proof.
  intros ([url Hurl] & _ & [hb Hhb]) Hb.
  rewrite bind_run, (check_rpc_call_run _ _ _ _ Hurl), Hb.
  unfold Heartbeat.host_requests_spec. rewrite Hurl, Hhb. cbn [default].
  destruct b.
  - rewrite (dict_getitem_some _ _ _ Hhb), bind_lift_ok, send_heartbeat_run. cbn.
    by rewrite <- app_assoc.
  - reflexivity.
Qed.

(** A run of hosts whose probes all report. *)
Lemma job_hosts_run (net : network) (hs : list host) (w : world) :
  (∀ h, h ∈ hs → Heartbeat.well_formed h) →
  (∀ k h, hs !! k = Some h →
     ∃ b, Heartbeat.health_reading h (post_reply net (count_posts (sent w) + k)%nat) = Ok b) →
  Heartbeat.job net (Heartbeat.Config hs) w =
  (World (sent w ++ Heartbeat.cycle_requests_spec net (count_posts (sent w)) hs)
         (registry w), Ok tt).
Proof.
  unfold Heartbeat.job. cbn [Heartbeat.hosts].
  revert w. induction hs as [|h hs IH]; intros w Hwf Hrep.
  - cbn. rewrite app_nil_r. by destruct w.
  - destruct (Hrep 0%nat h eq_refl) as [b Hb]. rewrite Nat.add_0_r in Hb.
    cbn [for_each]. rewrite bind_run.
    rewrite (job_host_run net h b w) by (auto using list_elem_of_here).
    rewrite IH.
    + cbn [sent registry]. rewrite cycle_requests_spec_cons, Hb.
      rewrite count_posts_app, count_posts_host_requests, Nat.add_1_r.
      rewrite <- app_assoc. by destruct b.
    + intros h' Hin. apply Hwf. by apply list_elem_of_further.
    + intros k h' Hk. cbn [sent].
      rewrite count_posts_app, count_posts_host_requests.
      destruct (Hrep (S k) h' Hk) as [b' Hb']. exists b'.
      by replace (count_posts (sent w) + 1 + k)%nat with (count_posts (sent w) + S k)%nat by lia.
Qed.

(** The hosts counted by [probes_returned] are those whose probes report;
    the next one, if any, is the first whose probe raises. *)
Lemma probes_returned_spec (net : network) (p : nat) (hs : list host) :
  let j := Heartbeat.probes_returned net p hs in
  (∀ k h, (k < j)%nat → hs !! k = Some h →
     ∃ b, Heartbeat.health_reading h (post_reply net (p + k)%nat) = Ok b) ∧
  (∀ h, hs !! j = Some h →
     ∃ e, Heartbeat.health_reading h (post_reply net (p + j)%nat) = Raised e).
Proof.
  revert p. induction hs as [|h hs IH]; intros p; cbn zeta.
  - split; [intros k h' Hlt; cbn in Hlt; lia | intros h' Hh; discriminate].
  - cbn [Heartbeat.probes_returned].
    destruct (Heartbeat.health_reading h (post_reply net p)) as [b|e] eqn:Hb.
    + destruct (IH (S p)) as [Hbefore Hat]. split.
      * intros [|k] h' Hlt Hk.
        -- cbn in Hk. simplify_eq. rewrite Nat.add_0_r. by exists b.
        -- cbn in Hk. replace (p + S k)%nat with (S p + k)%nat by lia.
           apply Hbefore; [lia | done].
      * intros h' Hk. cbn in Hk.
        replace (p + S (Heartbeat.probes_returned net (S p) hs))%nat
          with (S p + Heartbeat.probes_returned net (S p) hs)%nat by lia.
        by apply Hat.
    + split; [intros k h' Hlt; lia |].
      intros h' Hk. cbn in Hk. simplify_eq. rewrite Nat.add_0_r. by exists e.
Qed.

(** The cycle over any run of hosts that have their two endpoints: the
    hosts whose probes report are served in order, and the cycle ends
    there, or raises at the probe of the first host whose probe raises. *)
Lemma job_upto_first_raise (net : network) (hs : list host) (w : world) :
  (∀ h, h ∈ hs → is_Some (h !! "rpc_url") ∧ is_Some (h !! "heartbeat_endpoint")) →
  let p := count_posts (sent w) in
  let j := Heartbeat.probes_returned net p hs in
  Heartbeat.job net (Heartbeat.Config hs) w =
  (World (sent w
          ++ Heartbeat.cycle_requests_spec net p (take j hs)
          ++ match hs !! j with
             | Some h => [POST (default "" (h !! "rpc_url")) "getHealth"]
             | None => []
             end)
         (registry w),
   match hs !! j with
   | Some h =>
       match Heartbeat.health_reading h (post_reply net (p + j)%nat) with
       | Ok _ => Ok tt
       | Raised e => Raised e
       end
   | None => Ok tt
   end).
Proof.
  unfold Heartbeat.job. cbn [Heartbeat.hosts].
  revert w. induction hs as [|h hs IH]; intros w Hkeys; cbn zeta.
  - cbn. rewrite app_nil_r. by destruct w.
  - destruct (Hkeys h (list_elem_of_here _ _)) as [[url Hurl] [hb Hhb]].
    cbn [for_each Heartbeat.probes_returned]. rewrite bind_run, bind_run.
    rewrite (check_rpc_call_run _ _ _ _ Hurl).
    destruct (Heartbeat.health_reading h (post_reply net (count_posts (sent w))))
      as [b|e] eqn:Hb.
    + assert (Hstep :
        (if b then
           endpoint ← lift (dict_getitem h "heartbeat_endpoint");
           Heartbeat.send_heartbeat net endpoint
         else mret tt) (World (sent w ++ [POST url "getHealth"]) (registry w)) =
        (World (sent w ++ Heartbeat.host_requests_spec h b) (registry w), Ok tt)).
      { unfold Heartbeat.host_requests_spec. rewrite Hurl, Hhb. cbn [default].
        destruct b.
        - rewrite (dict_getitem_some _ _ _ Hhb), bind_lift_ok, send_heartbeat_run. cbn.
          by rewrite <- app_assoc.
        - reflexivity. }
      rewrite Hstep. clear Hstep.
      set (w1 := World (sent w ++ Heartbeat.host_requests_spec h b) (registry w)).
      assert (Hp : count_posts (sent w1) = S (count_posts (sent w))).
      { unfold w1. cbn [sent].
        rewrite count_posts_app, count_posts_host_requests. lia. }
      rewrite (IH w1) by (intros h' Hin; apply Hkeys; by apply list_elem_of_further).
      cbn zeta. rewrite Hp. unfold w1. cbn [sent registry take lookup].
      rewrite cycle_requests_spec_cons, Hb.
      replace (count_posts (sent w) + S (Heartbeat.probes_returned net (S (count_posts (sent w))) hs))%nat
        with (S (count_posts (sent w)) + Heartbeat.probes_returned net (S (count_posts (sent w))) hs)%nat
        by lia.
      rewrite <- !app_assoc. by destruct b.
    + change ((h :: hs) !! 0%nat) with (Some h). cbv beta iota.
      rewrite Nat.add_0_r, Hb, Hurl. reflexivity.
Qed.

(** C2.  In a cycle of the heartbeat script over host entries that have
    their two endpoints, whatever the network answers: a number [j] of
    hosts at the head of the configured list get a verdict from their
    probe, and the next host, if there is one, is the first whose probe
    raises.  The requests sent are, for these [j] hosts in the configured
    order, the host's probe followed by exactly one GET to that host's
    heartbeat endpoint when its probe reported healthy, and by nothing
    when it reported unhealthy; then the probe of the host whose probe
    raises, with no GET for it, and nothing at all for the hosts after
    it, which the cycle does not reach. *)
Theorem job_pings_exactly_the_healthy (net : network) (cfg : Heartbeat.config) (w : world) :
  (∀ h, h ∈ Heartbeat.hosts cfg →
     is_Some (h !! "rpc_url") ∧ is_Some (h !! "heartbeat_endpoint")) →
  let p := count_posts (sent w) in
  let j := Heartbeat.probes_returned net p (Heartbeat.hosts cfg) in
  (∀ k h, (k < j)%nat → Heartbeat.hosts cfg !! k = Some h →
     ∃ b, Heartbeat.health_reading h (post_reply net (p + k)%nat) = Ok b) ∧
  (∀ h, Heartbeat.hosts cfg !! j = Some h →
     ∃ e, Heartbeat.health_reading h (post_reply net (p + j)%nat) = Raised e) ∧
  Heartbeat.job net cfg w =
  (World (sent w
          ++ concat (imap (λ k h,
                             POST (default "" (h !! "rpc_url")) "getHealth" ::
                             if Heartbeat.reports_healthy
                                  (Heartbeat.health_reading h
                                     (post_reply net (p + k)%nat))
                             then [GET (default "" (h !! "heartbeat_endpoint"))]
                             else [])
                          (take j (Heartbeat.hosts cfg)))
          ++ match Heartbeat.hosts cfg !! j with
             | Some h => [POST (default "" (h !! "rpc_url")) "getHealth"]
             | None => []
             end)
         (registry w),
   match Heartbeat.hosts cfg !! j with
   | Some h =>
       match Heartbeat.health_reading h (post_reply net (p + j)%nat) with
       | Ok _ => Ok tt
       | Raised e => Raised e
       end
   | None => Ok tt
   end).
Proof.
  destruct cfg as [hs]. intros Hkeys p j.
  destruct (probes_returned_spec net p hs) as [Hbefore Hat].
  split; [exact Hbefore |]. split; [exact Hat |].
  exact (job_upto_first_raise net hs w Hkeys).
Qed.

(** Host a healthy, host b unhealthy, then host a again, answering with a
    JSON list: the fourth entry is not reached. *)
Lemma job_pings_exactly_the_healthy_witness :
  Heartbeat.job (scripted [health_ok; health_error; answer_200 (JArr []); health_ok])
    (Heartbeat.Config [host_a; host_b; host_a; host_b]) idle =
  (World [POST "http://a:8899" "getHealth"; GET "http://beat/a";
          POST "http://b:8899" "getHealth";
          POST "http://a:8899" "getHealth"] fresh_metrics,
   Raised AttributeError).
Proof.
  refine (eq_trans
    (proj2 (proj2
       (job_pings_exactly_the_healthy
          (scripted [health_ok; health_error; answer_200 (JArr []); health_ok])
          (Heartbeat.Config [host_a; host_b; host_a; host_b]) idle _))) _).
  - intros h Hh. cbn in Hh.
    repeat (apply elem_of_cons in Hh as [-> | Hh]; [split; eexists; reflexivity |]).
    by apply not_elem_of_nil in Hh.
  - reflexivity.
Defined.

(** C10.  When the entry at position [i] has no ["heartbeat_endpoint"] and
    its probe reports healthy, the hosts before it being served as usual,
    the cycle raises [KeyError] at that host: the last request of the
    cycle is that host's probe, so no ping is sent for it and no later
    host is probed. *)
Theorem job_missing_heartbeat_endpoint
    (net : network) (cfg : Heartbeat.config) (w : world)
    (i : nat) (h : host) (url : string) :
  Heartbeat.hosts cfg !! i = Some h →
  (∀ k h', (k < i)%nat → Heartbeat.hosts cfg !! k = Some h' →
     Heartbeat.well_formed h' ∧
     ∃ b, Heartbeat.health_reading h' (post_reply net (count_posts (sent w) + k)%nat) = Ok b) →
  h !! "rpc_url" = Some url →
  h !! "heartbeat_endpoint" = None →
  Heartbeat.health_reading h (post_reply net (count_posts (sent w) + i)%nat) = Ok true →
  Heartbeat.job net cfg w =
  (World (sent w
          ++ Heartbeat.cycle_requests_spec net (count_posts (sent w))
               (take i (Heartbeat.hosts cfg))
          ++ [POST url "getHealth"])
         (registry w),
   Raised (KeyError "heartbeat_endpoint")).
Proof.
  destruct cfg as [hs]. cbn [Heartbeat.hosts]. intros Hi Hpre Hurl Hhb Hhealthy.
  assert (Hlen : length (take i hs) = i).
  { rewrite length_take. apply lookup_lt_Some in Hi. lia. }
  pose proof (job_hosts_run net (take i hs) w) as Hrun.
  unfold Heartbeat.job in *. cbn [Heartbeat.hosts] in *.
  rewrite <- (take_drop_middle hs i h Hi) at 1.
  rewrite for_each_app, Hrun.
  - cbn [for_each]. rewrite bind_run, bind_run.
    rewrite (check_rpc_call_run _ _ _ _ Hurl). cbn [sent registry].
    rewrite count_posts_app, count_posts_cycle_requests, Hlen, Hhealthy.
    rewrite (dict_getitem_none _ _ Hhb), bind_lift_raised. cbn [sent registry].
    by rewrite <- app_assoc.
  - intros h' Hin. apply elem_of_take in Hin as (k & Hk & Hlt).
    by apply (Hpre k h').
  - intros k h' Hk. apply lookup_take_Some in Hk as [Hk Hlt].
    by apply (Hpre k h').
Qed.

Lemma job_missing_heartbeat_endpoint_witness :
  Heartbeat.job (scripted [health_ok; health_ok; health_ok])
    (Heartbeat.Config [host_a; host_c; host_b]) idle =
  (World [POST "http://a:8899" "getHealth"; GET "http://beat/a";
          POST "http://c:8899" "getHealth"] fresh_metrics,
   Raised (KeyError "heartbeat_endpoint")).
Proof.
  refine (eq_trans
    (job_missing_heartbeat_endpoint (scripted [health_ok; health_ok; health_ok])
       (Heartbeat.Config [host_a; host_c; host_b]) idle 1 host_c "http://c:8899"
       _ _ _ _ _) _).
  - reflexivity.
  - intros [|k] h' Hlt Hk; [| lia]. cbn in Hk. simplify_eq.
    split; [repeat split|]; eexists; reflexivity.
  - reflexivity.
  - reflexivity.
  - reflexivity.
  - reflexivity.
Defined.

(** ** The registry *)

Lemma insert_labels (g : gmap string Z) (l : string) (x : Z) :
  <[l := x]> (labels g l) = <[l := x]> g.
Proof.
  unfold labels. destruct (g !! l); [done | apply insert_insert_eq].
Qed.

Lemma lookup_labels (g : gmap string Z) (l : string) :
  labels g l !! l = Some (default 0 (g !! l)).
Proof.
  unfold labels. destruct (g !! l) eqn:E; [by rewrite E | apply lookup_insert_eq].
Qed.

Lemma lookup_labels_ne (g : gmap string Z) (l l' : string) :
  l ≠ l' → labels g l !! l' = g !! l'.
Proof.
  intros Hne. unfold labels. destruct (g !! l); [done | by apply lookup_insert_ne].
Qed.

(** ** [float] on integers *)

(** Up to 2^53 in magnitude the double is the integer itself. *)
Lemma py_float_of_int_exact (z : Z) :
  Z.abs z ≤ 2 ^ 53 → py_float_of_int z = Some z.
Proof.
  intros Hz. unfold py_float_of_int.
  by rewrite (proj2 (Z.leb_le _ _) Hz).
Qed.


(** ** One host of the exporter's cycle *)

Section ExporterHost.
Variable net : network.
Variable float_of_str : string → option Z.

(** The probe gave the integer [s]: the slot gauge, then the difference
    gauge, as far as [float] takes the numbers. *)
Lemma check_host_integer (reference : json) (r s : Z) (h : host)
      (url label : string) (w : world) :
  as_int reference = Some r →
  h !! "rpc_url" = Some url →
  h !! "host" = Some label →
  Exporter.slot_reading (post_reply net (count_posts (sent w))) = Ok (JInt s) →
  Exporter.check_host net float_of_str reference h w =
  match py_float_of_int s with
  | None =>
      (World (sent w ++ [POST url "getSlot"])
         (Metrics (labels (solana_node_slot_number (registry w)) label)
                  (solana_reference_slot_number (registry w))
                  (solana_slot_difference (registry w))
                  (solana_node_slot_error_count (registry w))
                  (solana_reference_slot_error_count (registry w))),
       Raised OverflowError)
  | Some x =>
      match py_float_of_int (r - s) with
      | None =>
          (World (sent w ++ [POST url "getSlot"])
             (Metrics (<[label := x]> (solana_node_slot_number (registry w)))
                      (solana_reference_slot_number (registry w))
                      (labels (solana_slot_difference (registry w)) label)
                      (solana_node_slot_error_count (registry w))
                      (solana_reference_slot_error_count (registry w))),
           Raised OverflowError)
      | Some d =>
          (World (sent w ++ [POST url "getSlot"])
             (Metrics (<[label := x]> (solana_node_slot_number (registry w)))
                      (solana_reference_slot_number (registry w))
                      (<[label := d]> (solana_slot_difference (registry w)))
                      (solana_node_slot_error_count (registry w))
                      (solana_reference_slot_error_count (registry w))),
           Ok tt)
      end
  end.
Proof.
  intros Href Hurl Hlabel Hs. unfold Exporter.check_host.
  rewrite (dict_getitem_some _ _ _ Hurl), bind_lift_ok.
  rewrite bind_run, get_slot_number_run, Hs. cbn [is_not_None].
  rewrite (dict_getitem_some _ _ _ Hlabel), !bind_lift_ok.
  unfold py_sub. rewrite Href.
  unfold Exporter.labels_set, Exporter.py_float, update_registry,
    mbind, M_bind, mret, M_ret, lift.
  cbn -[labels insert py_float_of_int].
  destruct (py_float_of_int s) as [x|]; cbn -[labels insert py_float_of_int]; [| done].
  destruct (py_float_of_int (r - s)) as [d|]; cbn -[labels insert py_float_of_int];
    by rewrite ?insert_labels.
Qed.

(** The same when [float] takes both numbers. *)
Lemma check_host_value (reference : json) (r s x d : Z) (h : host)
      (url label : string) (w : world) :
  as_int reference = Some r →
  h !! "rpc_url" = Some url →
  h !! "host" = Some label →
  Exporter.slot_reading (post_reply net (count_posts (sent w))) = Ok (JInt s) →
  py_float_of_int s = Some x →
  py_float_of_int (r - s) = Some d →
  Exporter.check_host net float_of_str reference h w =
  (World (sent w ++ [POST url "getSlot"])
     (Metrics (<[label := x]> (solana_node_slot_number (registry w)))
              (solana_reference_slot_number (registry w))
              (<[label := d]> (solana_slot_difference (registry w)))
              (solana_node_slot_error_count (registry w))
              (solana_reference_slot_error_count (registry w))),
   Ok tt).
Proof.
  intros Href Hurl Hlabel Hs Hx Hd.
  by rewrite (check_host_integer reference r s h url label w Href Hurl Hlabel Hs), Hx, Hd.
Qed.

(** The probe gave no value: the host's error counter goes up by one. *)
Lemma check_host_none (reference : json) (h : host)
      (url label : string) (w : world) :
  h !! "rpc_url" = Some url →
  h !! "host" = Some label →
  Exporter.slot_reading (post_reply net (count_posts (sent w))) = Ok JNull →
  Exporter.check_host net float_of_str reference h w =
  (World (sent w ++ [POST url "getSlot"])
     (Metrics (solana_node_slot_number (registry w))
              (solana_reference_slot_number (registry w))
              (solana_slot_difference (registry w))
              (<[label := default 0 (solana_node_slot_error_count (registry w) !! label) + 1]>
                 (solana_node_slot_error_count (registry w)))
              (solana_reference_slot_error_count (registry w))),
   Ok tt).
Proof.
  intros Hurl Hlabel Hs. unfold Exporter.check_host.
  rewrite (dict_getitem_some _ _ _ Hurl), bind_lift_ok.
  rewrite bind_run, get_slot_number_run, Hs. cbn [is_not_None].
  rewrite (dict_getitem_some _ _ _ Hlabel), !bind_lift_ok.
  unfold Exporter.labels_inc, update_registry, mbind, M_bind, mret, M_ret, lift.
  cbn -[labels insert lookup]. by rewrite lookup_labels, insert_labels.
Qed.

(** The cycle once the reference has answered with the integer [r], which
    [float] takes as [x]. *)
Lemma check_node_slots_reference_value (cfg : Exporter.config) (r x : Z) (w : world) :
  Exporter.slot_reading (post_reply net (count_posts (sent w))) = Ok (JInt r) →
  py_float_of_int r = Some x →
  Exporter.check_node_slots net float_of_str cfg w =
  for_each (Exporter.check_host net float_of_str (JInt r)) (Exporter.hosts cfg)
    (World (sent w ++ [POST (Exporter.reference_endpoint cfg) "getSlot"])
       (Metrics (solana_node_slot_number (registry w))
                x
                (solana_slot_difference (registry w))
                (solana_node_slot_error_count (registry w))
                (solana_reference_slot_error_count (registry w)))).
Proof.
  intros Hr Hx. unfold Exporter.check_node_slots.
  rewrite bind_run, get_slot_number_run, Hr. cbn [is_not_None].
  unfold Exporter.gauge_set, Exporter.py_float. rewrite bind_run, Hx. reflexivity.
Qed.

(** The cycle when the reference has answered with an integer beyond the
    doubles: it stops at [REFERENCE_SLOT_NUMBER.set]. *)
Lemma check_node_slots_reference_overflow (cfg : Exporter.config) (r : Z) (w : world) :
  Exporter.slot_reading (post_reply net (count_posts (sent w))) = Ok (JInt r) →
  py_float_of_int r = None →
  Exporter.check_node_slots net float_of_str cfg w =
  (World (sent w ++ [POST (Exporter.reference_endpoint cfg) "getSlot"]) (registry w),
   Raised OverflowError).
Proof.
  intros Hr Hx. unfold Exporter.check_node_slots.
  rewrite bind_run, get_slot_number_run, Hr. cbn [is_not_None].
  unfold Exporter.gauge_set, Exporter.py_float. rewrite bind_run, Hx. reflexivity.
Qed.

(** The cycle when the reference gives no value: one request, one
    increment, nothing else. *)
Lemma check_node_slots_reference_none (cfg : Exporter.config) (w : world) :
  Exporter.slot_reading (post_reply net (count_posts (sent w))) = Ok JNull →
  Exporter.check_node_slots net float_of_str cfg w =
  (World (sent w ++ [POST (Exporter.reference_endpoint cfg) "getSlot"])
     (with_value REFERENCE_SLOT_NUMBER_ERROR_COUNT
        (solana_reference_slot_error_count (registry w) + 1) (registry w)),
   Ok tt).
Proof.
  intros Hr. unfold Exporter.check_node_slots.
  rewrite bind_run, get_slot_number_run, Hr. reflexivity.
Qed.

(** C3.  When the reference probe yields no value, the cycle makes that
    one request and no other (no host is probed), adds exactly 1 to the
    reference error counter and leaves every other metric as it was. *)
Theorem check_node_slots_reference_failure (cfg : Exporter.config) (w : world) :
  Exporter.slot_reading (post_reply net (count_posts (sent w))) = Ok JNull →
  Exporter.check_node_slots net float_of_str cfg w =
  (World (sent w ++ [POST (Exporter.reference_endpoint cfg) "getSlot"])
     (Metrics (solana_node_slot_number (registry w))
              (solana_reference_slot_number (registry w))
              (solana_slot_difference (registry w))
              (solana_node_slot_error_count (registry w))
              (solana_reference_slot_error_count (registry w) + 1)),
   Ok tt).
Proof.
  intros Hr. by rewrite check_node_slots_reference_none.
Qed.

End ExporterHost.

(** ** Relations kept by every run *)

Section Preserves.
Context (R : metrics → metrics → Prop) `{!PreOrder R}.

Lemma preserves_ret {A} (a : A) : preserves R (mret a).
Proof. intros w. reflexivity. Qed.

Lemma preserves_lift {A} (r : result A) : preserves R (lift r).
Proof. intros w. reflexivity. Qed.

Lemma preserves_bind {A B} (c : M A) (f : A → M B) :
  preserves R c → (∀ a, preserves R (f a)) → preserves R (c ≫= f).
Proof.
  intros Hc Hf w. rewrite bind_run. specialize (Hc w).
  destruct (c w) as [w' [a|e]]; cbn in *; [| done].
  etrans; [exact Hc | apply Hf].
Qed.

Lemma preserves_lift_bind {A B} (r : result A) (f : A → M B) :
  (∀ a, r = Ok a → preserves R (f a)) → preserves R (lift r ≫= f).
Proof.
  intros Hf w. destruct r as [a|e].
  - rewrite bind_lift_ok. by apply Hf.
  - rewrite bind_lift_raised. reflexivity.
Qed.

Lemma preserves_try_except {A} (body : M A) (catches : exn → bool) (handler : exn → M A) :
  preserves R body → (∀ e, preserves R (handler e)) →
  preserves R (try_except body catches handler).
Proof.
  intros Hb Hh w. unfold try_except. specialize (Hb w).
  destruct (body w) as [w' [a|e]]; cbn in *; [done |].
  destruct (catches e); [| done].
  etrans; [exact Hb | apply Hh].
Qed.

Lemma preserves_for_each {A} (body : A → M unit) (l : list A) :
  (∀ x, x ∈ l → preserves R (body x)) → preserves R (for_each body l).
Proof.
  induction l as [|x l IH]; intros Hbody; cbn [for_each].
  - apply preserves_ret.
  - apply preserves_bind.
    + apply Hbody, list_elem_of_here.
    + intros _. apply IH. intros y Hy. by apply Hbody, list_elem_of_further.
Qed.

Lemma preserves_update (f : metrics → metrics) :
  (∀ m, R m (f m)) → preserves R (update_registry f).
Proof. intros Hf w. apply Hf. Qed.

Lemma preserves_get_slot_number (net : network) (url : string) :
  preserves R (Exporter.get_slot_number net url).
Proof. intros w. rewrite get_slot_number_run. reflexivity. Qed.
End Preserves.

#[local] Instance counters_grow_preorder : PreOrder Exporter.counters_grow.
Proof.
  split.
  - intros m. split; [lia | eauto with lia].
  - intros m1 m2 m3 [H1 H1'] [H2 H2']. split; [lia |].
    intros l v Hv. destruct (H1' l v Hv) as (v' & Hv' & ?).
    destruct (H2' l v' Hv') as (v'' & Hv'' & ?). exists v''. split; [done | lia].
Qed.

#[local] Instance touches_only_preorder (L : string → Prop) :
  PreOrder (Exporter.touches_only L).
Proof.
  split.
  - intros m. by repeat split.
  - intros m1 m2 m3 (Ha & Hb & Hc) (Ha' & Hb' & Hc'). repeat split; try congruence.
    all: intros; destruct (Hc l) as (? & ? & ?); [done|];
         destruct (Hc' l) as (? & ? & ?); [done|]; congruence.
Qed.

#[local] Instance evolves_preorder (L : string → Prop) : PreOrder (Exporter.evolves L).
Proof.
  split.
  - intros m. split; reflexivity.
  - intros m1 m2 m3 [H1 H1'] [H2 H2']. split; etrans; eauto.
Qed.

Lemma evolves_weaken (L L' : string → Prop) (m m' : metrics) :
  (∀ l, L l → L' l) → Exporter.evolves L m m' → Exporter.evolves L' m m'.
Proof.
  intros HL [(Ha & Hb & Hc) Hg]. split; [| done].
  split; [done | split; [done |]].
  intros l Hl. apply Hc. intros HLl. by apply Hl, HL.
Qed.

(** Writing children of one of the two slot gauges under a label of [L]. *)
Lemma evolves_node_slot (L : string → Prop) (m : metrics) (c : gmap string Z) (l : string) :
  L l → (∀ l', l ≠ l' → c !! l' = solana_node_slot_number m !! l') →
  Exporter.evolves L m (with_children NODE_SLOT_NUMBER c m).
Proof.
  intros HL Hc. split.
  - split; [done | split; [done |]]. cbn. intros l' Hl'.
    rewrite Hc; [done | by intros ->].
  - split; cbn; [lia |]. intros l' v Hv. exists v. split; [done | lia].
Qed.

Lemma evolves_slot_difference (L : string → Prop) (m : metrics) (c : gmap string Z) (l : string) :
  L l → (∀ l', l ≠ l' → c !! l' = solana_slot_difference m !! l') →
  Exporter.evolves L m (with_children SLOT_DIFFERENCE c m).
Proof.
  intros HL Hc. split.
  - split; [done | split; [done |]]. cbn. intros l' Hl'.
    rewrite Hc; [done | by intros ->].
  - split; cbn; [lia |]. intros l' v Hv. exists v. split; [done | lia].
Qed.

(** Writing children of the error counter, never downwards. *)
Lemma evolves_error_count (L : string → Prop) (m : metrics) (c : gmap string Z) (l : string) :
  L l → (∀ l', l ≠ l' → c !! l' = solana_node_slot_error_count m !! l') →
  (∀ v, solana_node_slot_error_count m !! l = Some v → ∃ v', c !! l = Some v' ∧ v ≤ v') →
  Exporter.evolves L m (with_children NODE_SLOT_NUMBER_ERROR_COUNT c m).
Proof.
  intros HL Hc Hup. split.
  - split; [done | split; [done |]]. cbn. intros l' Hl'.
    rewrite Hc; [done | by intros ->].
  - split; [cbn; lia |]. cbn. intros l' v Hv. destruct (decide (l = l')) as [<- | Hne].
    + by apply Hup.
    + exists v. rewrite Hc by done. split; [done | lia].
Qed.

Section ExporterFrame.
Variable net : network.
Variable float_of_str : string → option Z.

Lemma labels_set_node_slot_evolves (L : string → Prop) (l : string) (v : json) :
  L l → preserves (Exporter.evolves L) (Exporter.labels_set float_of_str NODE_SLOT_NUMBER l v).
Proof.
  intros HL. unfold Exporter.labels_set. apply preserves_bind; [apply _ | |].
  - apply preserves_update. intros m. apply (evolves_node_slot L m _ l HL).
    intros. by apply lookup_labels_ne.
  - intros _. apply preserves_lift_bind; [apply _ |]. intros x _.
    apply preserves_update. intros m. apply (evolves_node_slot L m _ l HL).
    intros. by apply lookup_insert_ne.
Qed.

Lemma labels_set_slot_difference_evolves (L : string → Prop) (l : string) (v : json) :
  L l → preserves (Exporter.evolves L) (Exporter.labels_set float_of_str SLOT_DIFFERENCE l v).
Proof.
  intros HL. unfold Exporter.labels_set. apply preserves_bind; [apply _ | |].
  - apply preserves_update. intros m. apply (evolves_slot_difference L m _ l HL).
    intros. by apply lookup_labels_ne.
  - intros _. apply preserves_lift_bind; [apply _ |]. intros x _.
    apply preserves_update. intros m. apply (evolves_slot_difference L m _ l HL).
    intros. by apply lookup_insert_ne.
Qed.

Lemma labels_inc_error_count_evolves (L : string → Prop) (l : string) :
  L l → preserves (Exporter.evolves L) (Exporter.labels_inc NODE_SLOT_NUMBER_ERROR_COUNT l).
Proof.
  intros HL. unfold Exporter.labels_inc. apply preserves_bind; [apply _ | |].
  - apply preserves_update. intros m. apply (evolves_error_count L m _ l HL).
    + intros. by apply lookup_labels_ne.
    + intros v Hv. exists v.
      change (children NODE_SLOT_NUMBER_ERROR_COUNT m) with (solana_node_slot_error_count m).
      rewrite lookup_labels, Hv. split; [done | lia].
  - intros _. apply preserves_update. intros m.
    apply (evolves_error_count L m _ l HL).
    + intros. by apply lookup_insert_ne.
    + intros v Hv. rewrite lookup_insert_eq.
      change (children NODE_SLOT_NUMBER_ERROR_COUNT m) with (solana_node_slot_error_count m).
      rewrite Hv. eexists. split; [done | cbn; lia].
Qed.

(** Whatever one host's turn comes to, it writes only under that host's
    label and lets no error counter go down. *)
Lemma check_host_evolves (L : string → Prop) (reference : json) (h : host) :
  (∀ l, h !! "host" = Some l → L l) →
  preserves (Exporter.evolves L) (Exporter.check_host net float_of_str reference h).
Proof.
  intros HL. unfold Exporter.check_host.
  apply preserves_lift_bind; [apply _ |]. intros url _.
  apply preserves_bind; [apply _ | apply preserves_get_slot_number; apply _ |].
  intros node_slot. destruct (is_not_None node_slot).
  - apply preserves_lift_bind; [apply _ |]. intros l Hl.
    assert (L l) as Hin.
    { apply HL. unfold dict_getitem in Hl. destruct (h !! "host"); by simplify_eq. }
    apply preserves_bind; [apply _ | by apply labels_set_node_slot_evolves |].
    intros _. apply preserves_lift_bind; [apply _ |]. intros d _.
    apply preserves_lift_bind; [apply _ |]. intros l' Hl'.
    assert (L l') as Hin'.
    { apply HL. unfold dict_getitem in Hl'. destruct (h !! "host"); by simplify_eq. }
    apply preserves_bind; [apply _ | by apply labels_set_slot_difference_evolves |].
    intros _. apply preserves_lift_bind; [apply _ |]. intros. apply preserves_ret; apply _.
  - apply preserves_lift_bind; [apply _ |]. intros l0 _.
    apply preserves_lift_bind; [apply _ |]. intros l Hl.
    assert (L l) as Hin.
    { apply HL. unfold dict_getitem in Hl. destruct (h !! "host"); by simplify_eq. }
    by apply labels_inc_error_count_evolves.
Qed.

(** A run of hosts writes only under labels those hosts carry. *)
Lemma for_each_host_evolves (reference : json) (hs : list host) :
  preserves (Exporter.evolves (Exporter.carried hs))
    (for_each (Exporter.check_host net float_of_str reference) hs).
Proof.
  apply preserves_for_each; [apply _ |]. intros h Hh.
  apply check_host_evolves. intros l Hl. by exists h.
Qed.

Lemma preserves_weaken {A} (R R' : metrics → metrics → Prop) (c : M A) :
  (∀ m m', R m m' → R' m m') → preserves R c → preserves R' c.
Proof. intros HR Hc w. apply HR, Hc. Qed.

Lemma check_node_slots_counters (cfg : Exporter.config) :
  preserves Exporter.counters_grow (Exporter.check_node_slots net float_of_str cfg).
Proof.
  unfold Exporter.check_node_slots.
  apply preserves_bind; [apply _ | apply preserves_get_slot_number; apply _ |].
  intros reference_slot. destruct (is_not_None reference_slot).
  - apply preserves_bind; [apply _ | |].
    + unfold Exporter.gauge_set. apply preserves_lift_bind; [apply _ |]. intros x _.
      apply preserves_update. intros m. split; cbn; [lia |].
      intros l v Hv. exists v. split; [done | lia].
    + intros _. apply preserves_for_each; [apply _ |]. intros h _.
      apply (preserves_weaken (Exporter.evolves (λ _, True))); [by intros m m' [_ ?] |].
      by apply check_host_evolves.
  - unfold Exporter.gauge_inc. apply preserves_update. intros m. split; cbn; [lia |].
    intros l v Hv. exists v. split; [done | lia].
Qed.

(** C9.  No run of the cycle evaluator, from any registry and whatever
    the network answers or the config holds, lets an error counter go
    down or disappear; nor does any number of rounds of the top-level
    loop. *)
Theorem error_counters_never_decrease (cfg : Exporter.config) :
  (∀ w, Exporter.counters_grow (registry w)
          (registry (Exporter.check_node_slots net float_of_str cfg w).1)) ∧
  (∀ n w, Exporter.counters_grow (registry w)
            (registry (Exporter.main net float_of_str cfg n w).1)).
Proof.
  split; [apply check_node_slots_counters |].
  intros n. unfold Exporter.main.
  apply preserves_try_except; [apply _ | | intros e; apply preserves_ret; apply _].
  apply preserves_bind; [apply _ | | intros; apply preserves_ret; apply _].
  induction n as [|n IH]; cbn [Exporter.run_pending].
  - apply preserves_ret; apply _.
  - apply preserves_bind; [apply _ | apply check_node_slots_counters | by intros _].
Qed.

(** A run of well-formed hosts each of which is served runs to its end,
    one POST per host. *)
Lemma for_each_host_completes (r : Z) (hs : list host) (w : world) :
  (∀ k h, hs !! k = Some h →
     Exporter.well_formed h ∧
     Exporter.served r
       (Exporter.slot_reading (post_reply net (count_posts (sent w) + k)%nat))) →
  ∃ w', for_each (Exporter.check_host net float_of_str (JInt r)) hs w = (w', Ok tt) ∧
        count_posts (sent w') = (count_posts (sent w) + length hs)%nat.
Proof.
  revert w. induction hs as [|h hs IH]; intros w Hhs.
  - exists w. split; [reflexivity | cbn; lia].
  - destruct (Hhs 0%nat h eq_refl) as [[[url Hurl] [label Hlabel]] Hread].
    rewrite Nat.add_0_r in Hread. cbn [for_each]. setoid_rewrite bind_run.
    assert (∃ m1, Exporter.check_host net float_of_str (JInt r) h w =
                  (World (sent w ++ [POST url "getSlot"]) m1, Ok tt)) as [m1 Hstep].
    { destruct Hread as [Hnone | (s & Hs & [x Hx] & [d Hd])].
      - eexists. by apply check_host_none.
      - eexists. by apply (check_host_value net float_of_str (JInt r) r s x d). }
    rewrite Hstep.
    destruct (IH (World (sent w ++ [POST url "getSlot"]) m1)) as (w' & Hrun & Hcount).
    { intros k h' Hk. cbn [sent]. rewrite count_posts_snoc_post.
      replace (S (count_posts (sent w)) + k)%nat with (count_posts (sent w) + S k)%nat by lia.
      by apply Hhs. }
    exists w'. split; [done |].
    rewrite Hcount. cbn [sent length]. rewrite count_posts_snoc_post. lia.
Qed.

End ExporterFrame.

(** ** The exporter's cycle, host by host *)

Section ExporterCycle.
Variable net : network.
Variable float_of_str : string → option Z.

(** The cycle up to the turn of the host at position [i]: the reference
    answered [r], stored as [x]; the hosts before [i] were served, and the
    registry changed only under the labels those hosts carry. *)
Lemma check_node_slots_upto
    (cfg : Exporter.config) (w : world) (i : nat) (h : host) (r x : Z) :
  Exporter.slot_reading (post_reply net (count_posts (sent w))) = Ok (JInt r) →
  py_float_of_int r = Some x →
  Exporter.hosts cfg !! i = Some h →
  (∀ k h', (k < i)%nat → Exporter.hosts cfg !! k = Some h' →
     Exporter.well_formed h' ∧
     Exporter.served r
       (Exporter.slot_reading (post_reply net (count_posts (sent w) + 1 + k)%nat))) →
  ∃ w2,
    Exporter.check_node_slots net float_of_str cfg w =
    for_each (Exporter.check_host net float_of_str (JInt r))
      (h :: drop (S i) (Exporter.hosts cfg)) w2 ∧
    count_posts (sent w2) = (count_posts (sent w) + 1 + i)%nat ∧
    Exporter.touches_only (Exporter.carried (take i (Exporter.hosts cfg)))
      (Metrics (solana_node_slot_number (registry w)) x
               (solana_slot_difference (registry w))
               (solana_node_slot_error_count (registry w))
               (solana_reference_slot_error_count (registry w)))
      (registry w2).
Proof.
  destruct cfg as [ref hs]. cbn [Exporter.hosts]. intros Hr Hx Hi Hpre.
  rewrite (check_node_slots_reference_value net float_of_str _ r x w Hr Hx).
  cbn [Exporter.hosts Exporter.reference_endpoint].
  set (w1 := World _ _).
  assert (Hlen : length (take i hs) = i).
  { rewrite length_take. apply lookup_lt_Some in Hi. lia. }
  assert (Hc1 : count_posts (sent w1) = (count_posts (sent w) + 1)%nat).
  { subst w1. cbn [sent]. rewrite count_posts_snoc_post. lia. }
  destruct (for_each_host_completes net float_of_str r (take i hs) w1)
    as (w2 & Hrun & Hcount).
  { intros k h' Hk. apply lookup_take_Some in Hk as [Hk Hlt].
    rewrite Hc1. by apply Hpre. }
  exists w2. split; [| split].
  - rewrite <- (take_drop_middle hs i h Hi) at 1. by rewrite for_each_app, Hrun.
  - rewrite Hcount, Hc1, Hlen. reflexivity.
  - pose proof (for_each_host_evolves net float_of_str (JInt r) (take i hs) w1) as [Hev _].
    by rewrite Hrun in Hev.
Qed.

(** C1 (as amended).  In a cycle whose reference probe gave the integer
    [r], a host whose probe gives the integer [s] has its slot gauge set to
    the double [float] makes of [s] and its slot-difference gauge to the
    double [float] makes of [r - s], positive or negative: these are [s]
    and [r - s] themselves whenever they are at most 2^53 in magnitude.
    The cycle has come to that host ([float] took [r], the hosts polled
    before were served) and no host polled after it carries the same
    label. *)
Theorem check_node_slots_sets_gauges
    (cfg : Exporter.config) (w : world) (i : nat) (h : host)
    (url label : string) (r s x d : Z) :
  Exporter.slot_reading (post_reply net (count_posts (sent w))) = Ok (JInt r) →
  Exporter.storable r →
  Exporter.hosts cfg !! i = Some h →
  h !! "rpc_url" = Some url →
  h !! "host" = Some label →
  (∀ k h', (k < i)%nat → Exporter.hosts cfg !! k = Some h' →
     Exporter.well_formed h' ∧
     Exporter.served r
       (Exporter.slot_reading (post_reply net (count_posts (sent w) + 1 + k)%nat))) →
  Exporter.slot_reading (post_reply net (count_posts (sent w) + 1 + i)%nat) = Ok (JInt s) →
  py_float_of_int s = Some x →
  py_float_of_int (r - s) = Some d →
  (∀ k h', (i < k)%nat → Exporter.hosts cfg !! k = Some h' → h' !! "host" ≠ Some label) →
  let m' := registry (Exporter.check_node_slots net float_of_str cfg w).1 in
  solana_node_slot_number m' !! label = Some x ∧
  solana_slot_difference m' !! label = Some d ∧
  (Z.abs s ≤ 2 ^ 53 → x = s) ∧
  (Z.abs (r - s) ≤ 2 ^ 53 → d = r - s).
Proof.
  intros Hr [xr Hxr] Hi Hurl Hlabel Hpre Hs Hx Hd Hpost m'. subst m'.
  destruct (check_node_slots_upto cfg w i h r xr Hr Hxr Hi Hpre) as (w2 & -> & Hcount & _).
  cbn [for_each]. rewrite bind_run.
  rewrite (check_host_value net float_of_str (JInt r) r s x d h url label w2)
    by (rewrite ?Hcount; done).
  set (w3 := World _ _).
  pose proof (for_each_host_evolves net float_of_str (JInt r)
                (drop (S i) (Exporter.hosts cfg)) w3) as [(_ & _ & Hframe) _].
  destruct (Hframe label) as (Hns & Hdiff & _).
  { intros (h' & Hin & Hl). apply list_elem_of_lookup in Hin as [k Hk].
    rewrite lookup_drop in Hk. by apply (Hpost (S i + k)%nat h'); [lia | |]. }
  rewrite Hns, Hdiff. subst w3. cbn [registry solana_node_slot_number solana_slot_difference].
  rewrite !lookup_insert_eq. repeat split.
  - intros Hsmall. rewrite (py_float_of_int_exact s Hsmall) in Hx. by simplify_eq.
  - intros Hsmall. rewrite (py_float_of_int_exact (r - s) Hsmall) in Hd. by simplify_eq.
Qed.

(** C4.  In a cycle that has come to a host whose probe gives no value
    (the reference gave the integer [r], which [float] took, and the hosts
    polled before were served), that host's error counter is raised by
    exactly 1 (from 0 when it had none) and its slot and slot-difference
    gauges are left as they were before the cycle.  No other host carries
    the same label. *)
Theorem check_node_slots_counts_failure
    (cfg : Exporter.config) (w : world) (i : nat) (h : host)
    (url label : string) (r : Z) :
  Exporter.slot_reading (post_reply net (count_posts (sent w))) = Ok (JInt r) →
  Exporter.storable r →
  Exporter.hosts cfg !! i = Some h →
  h !! "rpc_url" = Some url →
  h !! "host" = Some label →
  (∀ k h', (k < i)%nat → Exporter.hosts cfg !! k = Some h' →
     Exporter.well_formed h' ∧
     Exporter.served r
       (Exporter.slot_reading (post_reply net (count_posts (sent w) + 1 + k)%nat))) →
  Exporter.slot_reading (post_reply net (count_posts (sent w) + 1 + i)%nat) = Ok JNull →
  (∀ k h', k ≠ i → Exporter.hosts cfg !! k = Some h' → h' !! "host" ≠ Some label) →
  let m := registry w in
  let m' := registry (Exporter.check_node_slots net float_of_str cfg w).1 in
  solana_node_slot_error_count m' !! label
    = Some (default 0 (solana_node_slot_error_count m !! label) + 1) ∧
  solana_node_slot_number m' !! label = solana_node_slot_number m !! label ∧
  solana_slot_difference m' !! label = solana_slot_difference m !! label.
Proof.
  intros Hr [xr Hxr] Hi Hurl Hlabel Hpre Hs Hother m m'. subst m m'.
  destruct (check_node_slots_upto cfg w i h r xr Hr Hxr Hi Hpre)
    as (w2 & -> & Hcount & (_ & _ & Hbefore)).
  cbn [for_each]. rewrite bind_run.
  rewrite (check_host_none net float_of_str (JInt r) h url label w2)
    by (rewrite ?Hcount; done).
  set (w3 := World _ _).
  pose proof (for_each_host_evolves net float_of_str (JInt r)
                (drop (S i) (Exporter.hosts cfg)) w3) as [(_ & _ & Hafter) _].
  destruct (Hafter label) as (Hns & Hdiff & Herr).
  { intros (h' & Hin & Hl). apply list_elem_of_lookup in Hin as [k Hk].
    rewrite lookup_drop in Hk. by apply (Hother (S i + k)%nat h'); [lia | |]. }
  destruct (Hbefore label) as (Hns0 & Hdiff0 & Herr0).
  { intros (h' & Hin & Hl). apply elem_of_take in Hin as (k & Hk & Hlt).
    by apply (Hother k h'); [lia | |]. }
  cbn [solana_node_slot_number solana_slot_difference solana_node_slot_error_count]
    in Hns0, Hdiff0, Herr0.
  rewrite Hns, Hdiff, Herr. subst w3.
  cbn [registry solana_node_slot_number solana_slot_difference
       solana_node_slot_error_count].
  by rewrite lookup_insert_eq, Hns0, Hdiff0, Herr0.
Qed.

End ExporterCycle.

(** ** Running the cycle again *)

Lemma labels_union (g : gmap string Z) (l : string) :
  labels g l = g ∪ {[ l := 0 ]}.
Proof.
  unfold labels. destruct (g !! l) as [v|] eqn:E; apply map_eq; intros i;
    rewrite lookup_union; destruct (decide (l = i)) as [<- | Hne].
  - by rewrite E, lookup_singleton_eq.
  - rewrite lookup_singleton_ne by done. by destruct (g !! i).
  - by rewrite lookup_insert_eq, E, lookup_singleton_eq.
  - rewrite lookup_insert_ne, lookup_singleton_ne by done. by destruct (g !! i).
Qed.

(** A run of operations lays one fixed map over the children it starts
    from and another one under them. *)
Lemma apply_ops_normal (os : list Exporter.child_op) :
  ∃ A B : gmap string Z, ∀ g, Exporter.apply_ops os g = A ∪ (g ∪ B).
Proof.
  induction os as [|o os (A & B & IH)].
  - exists ∅, ∅. intros g. cbn. by rewrite (left_id_L ∅ (∪)), (right_id_L ∅ (∪)).
  - destruct o as [l x | l].
    + exists (A ∪ {[ l := x ]}), B. intros g.
      change (Exporter.apply_ops (Exporter.Write l x :: os) g)
        with (Exporter.apply_ops os (<[l := x]> g)).
      rewrite IH, insert_union_singleton_l.
      by rewrite <- !(assoc_L (∪)).
    + exists A, ({[ l := 0 ]} ∪ B). intros g.
      change (Exporter.apply_ops (Exporter.Touch l :: os) g)
        with (Exporter.apply_ops os (labels g l)).
      rewrite IH, labels_union.
      by rewrite <- !(assoc_L (∪)).
Qed.

Lemma apply_ops_idempotent (os : list Exporter.child_op) (g : gmap string Z) :
  Exporter.apply_ops os (Exporter.apply_ops os g) = Exporter.apply_ops os g.
Proof.
  destruct (apply_ops_normal os) as (A & B & H). rewrite !H.
  rewrite <- !(assoc_L (∪)), (idemp_L (∪) B).
  by rewrite !(assoc_L (∪)), (idemp_L (∪) A).
Qed.

Lemma cycle_effect_idempotent (r : Z) (lv : list (string * Z)) (m : metrics) :
  Exporter.cycle_effect r lv (Exporter.cycle_effect r lv m) = Exporter.cycle_effect r lv m.
Proof.
  unfold Exporter.cycle_effect. destruct (py_float_of_int r) as [x|]; [| done].
  cbn [solana_node_slot_number solana_slot_difference solana_node_slot_error_count
       solana_reference_slot_error_count].
  by rewrite !apply_ops_idempotent.
Qed.

Section ExporterAgain.
Variable net : network.
Variable float_of_str : string → option Z.

(** A run of hosts whose probes all give integers, [v k] for the host at
    position [k]: whether it ends or raises, the registry has received the
    operations of [slot_ops], in order. *)
Lemma for_each_host_integers (r : Z) (v : nat → Z) (hs : list host) (w : world) :
  (∀ k h, hs !! k = Some h →
     Exporter.well_formed h ∧
     Exporter.slot_reading (post_reply net (count_posts (sent w) + k)%nat)
       = Ok (JInt (v k))) →
  registry (for_each (Exporter.check_host net float_of_str (JInt r)) hs w).1 =
  Metrics
    (Exporter.apply_ops
       (Exporter.slot_ops r (imap (λ k h, (default "" (h !! "host"), v k)) hs)).1
       (solana_node_slot_number (registry w)))
    (solana_reference_slot_number (registry w))
    (Exporter.apply_ops
       (Exporter.slot_ops r (imap (λ k h, (default "" (h !! "host"), v k)) hs)).2
       (solana_slot_difference (registry w)))
    (solana_node_slot_error_count (registry w))
    (solana_reference_slot_error_count (registry w)).
Proof.
  revert v w. induction hs as [|h hs IH]; intros v w Hhs.
  - cbn. by destruct w as [? []].
  - destruct (Hhs 0%nat h eq_refl) as [[[url Hurl] [label Hlabel]] Hread].
    rewrite Nat.add_0_r in Hread. cbn [for_each]. rewrite bind_run.
    rewrite (check_host_integer net float_of_str (JInt r) r (v 0%nat) h url label w)
      by done.
    cbn [imap Exporter.slot_ops]. rewrite Hlabel. cbn [default].
    destruct (py_float_of_int (v 0%nat)) as [x|]; [| reflexivity].
    destruct (py_float_of_int (r - v 0%nat)) as [d|]; [| reflexivity].
    set (w1 := World _ _).
    rewrite (IH (v ∘ S) w1).
    + reflexivity.
    + intros k h' Hk. subst w1. cbn [sent]. rewrite count_posts_snoc_post.
      replace (S (count_posts (sent w)) + k)%nat with (count_posts (sent w) + S k)%nat by lia.
      by apply Hhs.
Qed.

(** A whole cycle in which the reference gives the integer [r] and the
    hosts give integers. *)
Lemma check_node_slots_integers
    (cfg : Exporter.config) (w : world) (r : Z) (v : nat → Z) :
  (∀ h, h ∈ Exporter.hosts cfg → Exporter.well_formed h) →
  Exporter.slot_reading (post_reply net (count_posts (sent w))) = Ok (JInt r) →
  (∀ k, (k < length (Exporter.hosts cfg))%nat →
     Exporter.slot_reading (post_reply net (count_posts (sent w) + 1 + k)%nat)
       = Ok (JInt (v k))) →
  registry (Exporter.check_node_slots net float_of_str cfg w).1 =
  Exporter.cycle_effect r
    (imap (λ k h, (default "" (h !! "host"), v k)) (Exporter.hosts cfg)) (registry w).
Proof.
  intros Hwf Hr Hv. unfold Exporter.cycle_effect.
  destruct (py_float_of_int r) as [x|] eqn:Hx.
  - rewrite (check_node_slots_reference_value net float_of_str cfg r x w Hr Hx).
    set (w1 := World _ _).
    rewrite (for_each_host_integers r v (Exporter.hosts cfg) w1); [done |].
    intros k h Hk. split; [by eapply Hwf, list_elem_of_lookup_2 |].
    subst w1. cbn [sent]. rewrite count_posts_snoc_post.
    replace (S (count_posts (sent w)) + k)%nat with (count_posts (sent w) + 1 + k)%nat by lia.
    apply Hv. by eapply lookup_lt_Some.
  - by rewrite (check_node_slots_reference_overflow net float_of_str cfg r w Hr Hx).
Qed.

(** C8.  Two cycles in a row, from any registry, in which the reference
    gives the same integer [r] and every host gives the same integer
    ([v k] for the host at position [k]) both times: the second cycle
    leaves the whole registry, gauges and error counters alike, exactly
    as the first one left it.  This holds for all integers, those that
    [float] rounds and those at which [.set] raises included. *)
Theorem check_node_slots_idempotent
    (cfg : Exporter.config) (w : world) (r : Z) (v : nat → Z) :
  let n := length (Exporter.hosts cfg) in
  let w1 := (Exporter.check_node_slots net float_of_str cfg w).1 in
  (∀ h, h ∈ Exporter.hosts cfg → Exporter.well_formed h) →
  Exporter.slot_reading (post_reply net (count_posts (sent w))) = Ok (JInt r) →
  (∀ k, (k < n)%nat →
     Exporter.slot_reading (post_reply net (count_posts (sent w) + 1 + k)%nat)
       = Ok (JInt (v k))) →
  Exporter.slot_reading (post_reply net (count_posts (sent w1))) = Ok (JInt r) →
  (∀ k, (k < n)%nat →
     Exporter.slot_reading (post_reply net (count_posts (sent w1) + 1 + k)%nat)
       = Ok (JInt (v k))) →
  registry (Exporter.check_node_slots net float_of_str cfg w1).1 = registry w1.
Proof.
  intros n w1 Hwf Hr Hv Hr' Hv'.
  rewrite (check_node_slots_integers cfg w1 r v Hwf Hr' Hv').
  subst w1. rewrite (check_node_slots_integers cfg w r v Hwf Hr Hv).
  apply cycle_effect_idempotent.
Qed.

End ExporterAgain.

(** ** The scheduler loops *)




Section Loops.
Variable net : network.
Variable float_of_str : string → option Z.







End Loops.


(** ** The theorems at work on the sample inputs *)

(** Scenario 2: the reference is unreachable. *)
Lemma check_node_slots_reference_failure_witness :
  Exporter.check_node_slots (scripted []) (λ _, None) sample_exporter_config idle =
  (World [POST "http://ref:8899" "getSlot"] (Metrics ∅ 0 ∅ ∅ 1), Ok tt).
Proof.
  exact (check_node_slots_reference_failure (scripted []) (λ _, None)
           sample_exporter_config idle eq_refl).
Defined.

(** Reference at 1000, host a at 998, host b ahead at 1003. *)
Lemma check_node_slots_sets_gauges_witness :
  let m' := registry
    (Exporter.check_node_slots
       (scripted [slot_answer 1000; slot_answer 998; slot_answer 1003]) (λ _, None)
       sample_exporter_config idle).1 in
  solana_node_slot_number m' !! "b" = Some 1003 ∧
  solana_slot_difference m' !! "b" = Some (-3) ∧
  (Z.abs 1003 ≤ 2 ^ 53 → 1003 = 1003) ∧
  (Z.abs (1000 - 1003) ≤ 2 ^ 53 → -3 = 1000 - 1003).
Proof.
  apply (check_node_slots_sets_gauges
           (scripted [slot_answer 1000; slot_answer 998; slot_answer 1003]) (λ _, None)
           sample_exporter_config idle 1 host_b "http://b:8899" "b" 1000 1003 1003 (-3)).
  - reflexivity.
  - eexists. reflexivity.
  - reflexivity.
  - reflexivity.
  - reflexivity.
  - intros [|k] h' Hlt Hk; [| lia]. cbn in Hk. simplify_eq.
    split; [split; eexists; reflexivity |].
    right. exists 998. split; [reflexivity |]. split; eexists; reflexivity.
  - reflexivity.
  - reflexivity.
  - reflexivity.
  - intros [|[|k]] h' Hlt Hk; [lia | lia | discriminate].
Defined.

(** C1, as first stated, fails on large slots: a host at 2^53 + 1 leaves
    its slot gauge at 2^53, the nearest double, and a host at 2^1024 makes
    [.set] raise OverflowError, the gauge just created reading 0. *)
Lemma check_node_slots_large_slot :
  solana_node_slot_number
    (registry
       (Exporter.check_node_slots
          (scripted [slot_answer 1000; slot_answer (2 ^ 53 + 1)]) (λ _, None)
          sample_exporter_config idle).1) !! "a" = Some (2 ^ 53) ∧
  Exporter.check_node_slots
    (scripted [slot_answer 1000; slot_answer (2 ^ 1024)]) (λ _, None)
    sample_exporter_config idle =
  (World [POST "http://ref:8899" "getSlot"; POST "http://a:8899" "getSlot"]
     (Metrics {[ "a" := 0 ]} 1000 ∅ ∅ 0),
   Raised OverflowError).
Proof. split; vm_compute; reflexivity. Qed.

(** Reference at 1000, host a at 998, host b unreachable. *)
Lemma check_node_slots_counts_failure_witness :
  let m' := registry
    (Exporter.check_node_slots
       (scripted [slot_answer 1000; slot_answer 998]) (λ _, None)
       sample_exporter_config idle).1 in
  solana_node_slot_error_count m' !! "b" = Some 1 ∧
  solana_node_slot_number m' !! "b" = None ∧
  solana_slot_difference m' !! "b" = None.
Proof.
  apply (check_node_slots_counts_failure
           (scripted [slot_answer 1000; slot_answer 998]) (λ _, None)
           sample_exporter_config idle 1 host_b "http://b:8899" "b" 1000).
  - reflexivity.
  - eexists. reflexivity.
  - reflexivity.
  - reflexivity.
  - reflexivity.
  - intros [|k] h' Hlt Hk; [| lia]. cbn in Hk. simplify_eq.
    split; [split; eexists; reflexivity |].
    right. exists 998. split; [reflexivity |]. split; eexists; reflexivity.
  - reflexivity.
  - intros [|[|k]] h' Hne Hk; [| done | discriminate].
    cbn in Hk. simplify_eq. discriminate.
Defined.

(** Two rounds with the reference at 1000, host a at 998, host b at 1003. *)
Lemma check_node_slots_idempotent_witness :
  let net := scripted [slot_answer 1000; slot_answer 998; slot_answer 1003;
                       slot_answer 1000; slot_answer 998; slot_answer 1003] in
  let w1 := (Exporter.check_node_slots net (λ _, None) sample_exporter_config idle).1 in
  registry (Exporter.check_node_slots net (λ _, None) sample_exporter_config w1).1
  = registry w1.
Proof.
  apply (check_node_slots_idempotent
           (scripted [slot_answer 1000; slot_answer 998; slot_answer 1003;
                      slot_answer 1000; slot_answer 998; slot_answer 1003]) (λ _, None)
           sample_exporter_config idle 1000
           (λ k, match k with O => 998 | S _ => 1003 end)).
  - intros h Hh. cbn in Hh.
    apply elem_of_cons in Hh as [-> | Hh];
      [| apply elem_of_cons in Hh as [-> | Hh]; [| by apply not_elem_of_nil in Hh]].
    all: split; eexists; reflexivity.
  - reflexivity.
  - intros [|[|k]] Hk; [reflexivity | reflexivity | cbn in Hk; lia].
  - reflexivity.
  - intros [|[|k]] Hk; [reflexivity | reflexivity | cbn in Hk; lia].
Defined.


(** * Further properties of the two scripts *)

(** ** The heartbeat forwarder *)


(** ** Edges of the two probes *)

(** What [check_rpc_call] comes to on an entry that names its RPC URL but
    not its label, by cases on the outcome. *)
Lemma health_reading_unlabelled_cases (h : host) (url : string) (o : http_outcome) :
  h !! "rpc_url" = Some url →
  h !! "host" = None →
  Heartbeat.health_reading h o =
  match o with
  | TransportFailure => Ok false
  | Answer r =>
      if bool_decide (400 ≤ status_code r < 600) then Ok false
      else match content r with
           | NotJson => Ok false
           | Json j =>
               match py_contains "error" j with
               | Ok true =>
                   match py_getitem j "error" with
                   | Ok _ => Ok false
                   | Raised e => Raised e
                   end
               | Ok false => Raised (KeyError "host")
               | Raised e => Raised e
               end
           end
  end.
Proof.
  intros Hurl Hlabel.
  unfold Heartbeat.health_reading, Heartbeat.check_rpc_call.
  rewrite (dict_getitem_some _ _ _ Hurl), (dict_getitem_none _ _ Hlabel), !bind_lift_ok.
  unfold requests_post, perform, raise_for_status, response_json, always, idle.
  run_cases; not_a_request_exception.
Qed.

(** X2.  The label of a host entry is only used in the success log line
    of [check_rpc_call], yet an entry without it can never be reported
    healthy: on an answer that would be healthy (status outside 4xx/5xx,
    a JSON object without ["error"]) the probe raises [KeyError] after its
    one POST. *)
Theorem check_rpc_call_unlabelled_host
    (net : network) (h : host) (url : string) (w : world)
    (r : response) (d : gmap string json) :
  h !! "rpc_url" = Some url →
  h !! "host" = None →
  post_reply net (count_posts (sent w)) = Answer r →
  ¬ (400 ≤ status_code r < 600) →
  content r = Json (JObj d) →
  d !! "error" = None →
  Heartbeat.check_rpc_call net h w =
  (World (sent w ++ [POST url "getHealth"]) (registry w), Raised (KeyError "host")).
Proof.
  intros Hurl Hlabel Ho Hst Hbody Herr.
  rewrite (check_rpc_call_run _ _ _ _ Hurl), Ho.
  rewrite (health_reading_unlabelled_cases _ _ _ Hurl Hlabel).
  rewrite bool_decide_eq_false_2, Hbody by done. cbn.
  rewrite bool_decide_eq_false_2; [done |]. rewrite Herr. by intros [? ?].
Qed.

Lemma check_rpc_call_unlabelled_host_witness :
  Heartbeat.check_rpc_call (always health_ok)
    {[ "rpc_url" := "http://a:8899"; "heartbeat_endpoint" := "http://beat/a" ]} idle =
  (World [POST "http://a:8899" "getHealth"] fresh_metrics, Raised (KeyError "host")).
Proof.
  pose (d := {[ "result" := JStr "ok" ]} : gmap string json).
  apply (check_rpc_call_unlabelled_host (always health_ok) _ "http://a:8899" idle
           (Response 200 (Json (JObj d))) d).
  - reflexivity.
  - reflexivity.
  - reflexivity.
  - simpl. lia.
  - reflexivity.
  - reflexivity.
Defined.

(** X3.  A body that is valid JSON but not an object never gets a verdict
    out of [check_rpc_call]: on a status outside 4xx/5xx the probe raises
    [TypeError] or [AttributeError] past its caller, whatever the value
    (null, a boolean, a number, a string, a list). *)
Theorem check_rpc_call_raises_on_non_object
    (net : network) (h : host) (url label : string) (w : world)
    (r : response) (j : json) :
  h !! "rpc_url" = Some url →
  h !! "host" = Some label →
  post_reply net (count_posts (sent w)) = Answer r →
  ¬ (400 ≤ status_code r < 600) →
  content r = Json j →
  (∀ d, j ≠ JObj d) →
  ∃ e, (e = TypeError ∨ e = AttributeError) ∧
       Heartbeat.check_rpc_call net h w =
       (World (sent w ++ [POST url "getHealth"]) (registry w), Raised e).
Proof.
  intros Hurl Hlabel Ho Hst Hbody Hj.
  rewrite (check_rpc_call_run _ _ _ _ Hurl), Ho.
  rewrite (health_reading_cases _ _ _ _ Hurl Hlabel).
  rewrite bool_decide_eq_false_2, Hbody by done.
  destruct j as [| b | z | s | l | d]; cbn.
  - exists TypeError. auto.
  - exists TypeError. auto.
  - exists TypeError. auto.
  - destruct (is_substring "error" s); [exists TypeError | exists AttributeError]; auto.
  - destruct (existsb (json_is_str "error") l); [exists TypeError | exists AttributeError]; auto.
  - by destruct (Hj d).
Qed.

Lemma check_rpc_call_raises_on_non_object_witness :
  ∃ e, (e = TypeError ∨ e = AttributeError) ∧
       Heartbeat.check_rpc_call (always (answer_200 (JStr "an error occurred"))) host_a idle =
       (World [POST "http://a:8899" "getHealth"] fresh_metrics, Raised e).
Proof.
  apply (check_rpc_call_raises_on_non_object
           (always (answer_200 (JStr "an error occurred"))) host_a "http://a:8899" "a" idle
           (Response 200 (Json (JStr "an error occurred"))) (JStr "an error occurred")).
  - reflexivity.
  - reflexivity.
  - reflexivity.
  - simpl. lia.
  - reflexivity.
  - intros d. discriminate.
Defined.

(** X4.  [get_slot_number] raises [AttributeError] past its caller on any
    body that is valid JSON but not an object (status outside 4xx/5xx):
    [.get] exists on a dict only, and the exception is no
    [RequestException]. *)
Theorem get_slot_number_raises_on_non_object
    (net : network) (url : string) (w : world) (r : response) (j : json) :
  post_reply net (count_posts (sent w)) = Answer r →
  ¬ (400 ≤ status_code r < 600) →
  content r = Json j →
  (∀ d, j ≠ JObj d) →
  Exporter.get_slot_number net url w =
  (World (sent w ++ [POST url "getSlot"]) (registry w), Raised AttributeError).
Proof.
  intros Ho Hst Hbody Hj.
  rewrite get_slot_number_run, Ho, slot_reading_cases.
  rewrite bool_decide_eq_false_2, Hbody by done.
  destruct j; try reflexivity. by destruct (Hj d).
Qed.

Lemma get_slot_number_raises_on_non_object_witness :
  Exporter.get_slot_number (always (answer_200 (JInt 998))) "http://a:8899" idle =
  (World [POST "http://a:8899" "getSlot"] fresh_metrics, Raised AttributeError).
Proof.
  apply (get_slot_number_raises_on_non_object (always (answer_200 (JInt 998)))
           "http://a:8899" idle (Response 200 (Json (JInt 998))) (JInt 998)).
  - reflexivity.
  - simpl. lia.
  - reflexivity.
  - intros d. discriminate.
Defined.

(** ** The heartbeat cycle under any config and any network *)

Lemma check_rpc_call_no_url (net : network) (h : host) (w : world) :
  h !! "rpc_url" = None →
  Heartbeat.check_rpc_call net h w = (w, Raised (KeyError "rpc_url")).
Proof.
  intros Hurl. unfold Heartbeat.check_rpc_call.
  by rewrite (dict_getitem_none _ _ Hurl), bind_lift_raised.
Qed.

Lemma filter_is_get_snoc_post (log : list request) (url method : string) :
  filter is_get (log ++ [POST url method]) = filter is_get log.
Proof. rewrite filter_app. cbn. apply app_nil_r. Qed.

(** X5.  No false ping.  Whatever the config holds (entries without keys
    included) and whether the cycle returns or raises: when no probe of a
    configured host reports healthy, the cycle sends no GET at all. *)
Theorem job_never_pings_without_a_healthy_report
    (net : network) (cfg : Heartbeat.config) (w : world) :
  (∀ h k, h ∈ Heartbeat.hosts cfg →
     Heartbeat.health_reading h (post_reply net k) ≠ Ok true) →
  filter is_get (sent (Heartbeat.job net cfg w).1) = filter is_get (sent w).
Proof.
  destruct cfg as [hs]. unfold Heartbeat.job. cbn [Heartbeat.hosts].
  revert w. induction hs as [|h hs IH]; intros w Hnone; [reflexivity |].
  cbn [for_each]. rewrite bind_run, bind_run.
  destruct (h !! "rpc_url") as [url|] eqn:Hurl.
  - rewrite (check_rpc_call_run _ _ _ _ Hurl).
    destruct (Heartbeat.health_reading h (post_reply net (count_posts (sent w))))
      as [[|] | e] eqn:Hread.
    + by destruct (Hnone h (count_posts (sent w)) (list_elem_of_here _ _)).
    + cbn. rewrite IH; [apply filter_is_get_snoc_post |].
      intros h' k Hin. apply Hnone. by apply list_elem_of_further.
    + cbn. apply filter_is_get_snoc_post.
  - by rewrite (check_rpc_call_no_url _ _ _ Hurl).
Qed.

Lemma job_never_pings_without_a_healthy_report_witness :
  filter is_get
    (sent (Heartbeat.job (always health_error) sample_heartbeat_config idle).1) = [].
Proof.
  apply (job_never_pings_without_a_healthy_report (always health_error)
           sample_heartbeat_config idle).
  intros h k Hh. cbn in Hh.
  apply elem_of_cons in Hh as [-> | Hh];
    [| apply elem_of_cons in Hh as [-> | Hh]; [| by apply not_elem_of_nil in Hh]].
  all: vm_compute; discriminate.
Defined.






(** X7.  No isolation between hosts when a probe raises.  When the probe
    of the entry at position [i] raises [e] (a body that is not an object,
    a missing label), the hosts before it having been served as usual, the
    cycle raises [e] there: its last request is that host's probe and no
    later host is probed in that cycle. *)
Theorem job_stops_at_a_raising_probe
    (net : network) (cfg : Heartbeat.config) (w : world)
    (i : nat) (h : host) (url : string) (e : exn) :
  Heartbeat.hosts cfg !! i = Some h →
  (∀ k h', (k < i)%nat → Heartbeat.hosts cfg !! k = Some h' →
     Heartbeat.well_formed h' ∧
     ∃ b, Heartbeat.health_reading h' (post_reply net (count_posts (sent w) + k)%nat) = Ok b) →
  h !! "rpc_url" = Some url →
  Heartbeat.health_reading h (post_reply net (count_posts (sent w) + i)%nat) = Raised e →
  Heartbeat.job net cfg w =
  (World (sent w
          ++ Heartbeat.cycle_requests_spec net (count_posts (sent w))
               (take i (Heartbeat.hosts cfg))
          ++ [POST url "getHealth"])
         (registry w),
   Raised e).
Proof.
  destruct cfg as [hs]. cbn [Heartbeat.hosts]. intros Hi Hpre Hurl Hraise.
  assert (Hlen : length (take i hs) = i).
  { rewrite length_take. apply lookup_lt_Some in Hi. lia. }
  pose proof (job_hosts_run net (take i hs) w) as Hrun.
  unfold Heartbeat.job in *. cbn [Heartbeat.hosts] in *.
  rewrite <- (take_drop_middle hs i h Hi) at 1.
  rewrite for_each_app, Hrun.
  - cbn [for_each]. rewrite bind_run, bind_run.
    rewrite (check_rpc_call_run _ _ _ _ Hurl). cbn [sent registry].
    rewrite count_posts_app, count_posts_cycle_requests, Hlen, Hraise.
    by rewrite <- app_assoc.
  - intros h' Hin. apply elem_of_take in Hin as (k & Hk & Hlt).
    by apply (Hpre k h').
  - intros k h' Hk. apply lookup_take_Some in Hk as [Hk Hlt].
    by apply (Hpre k h').
Qed.

Lemma job_stops_at_a_raising_probe_witness :
  Heartbeat.job (scripted [health_ok; answer_200 (JArr []); health_ok])
    (Heartbeat.Config [host_a; host_b; host_c]) idle =
  (World [POST "http://a:8899" "getHealth"; GET "http://beat/a";
          POST "http://b:8899" "getHealth"] fresh_metrics,
   Raised AttributeError).
Proof.
  refine (eq_trans
    (job_stops_at_a_raising_probe (scripted [health_ok; answer_200 (JArr []); health_ok])
       (Heartbeat.Config [host_a; host_b; host_c]) idle 1 host_b "http://b:8899"
       AttributeError _ _ _ _) _).
  - reflexivity.
  - intros [|k] h' Hlt Hk; [| lia]. cbn in Hk. simplify_eq.
    split; [repeat split|]; eexists; reflexivity.
  - reflexivity.
  - reflexivity.
  - reflexivity.
Defined.

(** ** The exporter's cycle under any config and any network *)

Section ExporterEdges.
Variable net : network.
Variable float_of_str : string → option Z.

(** X8.  Reference down for [n] rounds in a row: the rounds make [n]
    requests, all to the reference endpoint, the reference error counter
    ends exactly [n] higher and every other metric is as it was. *)
Theorem run_pending_counts_reference_failures
    (cfg : Exporter.config) (n : nat) (w : world) :
  (∀ k, Exporter.slot_reading (post_reply net k) = Ok JNull) →
  Exporter.run_pending net float_of_str cfg n w =
  (World (sent w ++ replicate n (POST (Exporter.reference_endpoint cfg) "getSlot"))
     (Metrics (solana_node_slot_number (registry w))
              (solana_reference_slot_number (registry w))
              (solana_slot_difference (registry w))
              (solana_node_slot_error_count (registry w))
              (solana_reference_slot_error_count (registry w) + Z.of_nat n)),
   Ok tt).
Proof.
  intros Hdown. revert w. induction n as [|n IH]; intros w.
  - cbn. rewrite app_nil_r, Z.add_0_r. by destruct w as [? []].
  - cbn [Exporter.run_pending]. unfold Exporter.job. rewrite bind_run.
    rewrite (check_node_slots_reference_none net float_of_str cfg w (Hdown _)).
    rewrite IH. cbn [sent registry with_value REFERENCE_SLOT_NUMBER_ERROR_COUNT
      solana_node_slot_number solana_reference_slot_number solana_slot_difference
      solana_node_slot_error_count solana_reference_slot_error_count replicate].
    rewrite <- app_assoc. cbn [app]. do 3 f_equal. lia.
Qed.

(** X9.  Once the reference has answered with an integer [r] that
    [float] turns into the double [x], the reference gauge reads [x] at the
    end of the cycle ([r] itself when its magnitude is at most 2^53) and
    the reference error counter is as before, whatever the hosts answer
    and whether the cycle returns or raises on the way. *)
Theorem check_node_slots_sets_reference_gauge
    (cfg : Exporter.config) (w : world) (r x : Z) :
  Exporter.slot_reading (post_reply net (count_posts (sent w))) = Ok (JInt r) →
  py_float_of_int r = Some x →
  let m' := registry (Exporter.check_node_slots net float_of_str cfg w).1 in
  solana_reference_slot_number m' = x ∧
  (Z.abs r ≤ 2 ^ 53 → x = r) ∧
  solana_reference_slot_error_count m'
    = solana_reference_slot_error_count (registry w).
Proof.
  intros Hr Hx m'. subst m'.
  rewrite (check_node_slots_reference_value net float_of_str cfg r x w Hr Hx).
  set (w1 := World _ _).
  pose proof (for_each_host_evolves net float_of_str (JInt r) (Exporter.hosts cfg) w1)
    as [(Hgauge & Hcount & _) _].
  rewrite Hgauge, Hcount. split; [done |]. split; [| done].
  intros Hsmall. rewrite (py_float_of_int_exact r Hsmall) in Hx. by simplify_eq.
Qed.

(** X11.  A reference answer that is not [None] but that [float] rejects
    (a list, an object, a string that is no numeral) makes the cycle raise
    at [REFERENCE_SLOT_NUMBER.set]: after the one request, with no host
    probed and with the whole registry as it was; in particular the
    reference error counter does not move. *)
Theorem check_node_slots_rejected_reference
    (cfg : Exporter.config) (w : world) (v : json) (e : exn) :
  Exporter.slot_reading (post_reply net (count_posts (sent w))) = Ok v →
  is_not_None v = true →
  Exporter.py_float float_of_str v = Raised e →
  Exporter.check_node_slots net float_of_str cfg w =
  (World (sent w ++ [POST (Exporter.reference_endpoint cfg) "getSlot"]) (registry w),
   Raised e).
Proof.
  intros Hv Hsome Hfloat. unfold Exporter.check_node_slots.
  rewrite bind_run, get_slot_number_run, Hv, Hsome.
  unfold Exporter.gauge_set. by rewrite bind_run, bind_run, Hfloat.
Qed.

(** X12.  A host answer that is not [None] but that [float] rejects makes
    the host's turn raise at [.set], after [.labels(...)] has made sure the
    child exists: a host that had no slot gauge yet gets one reading 0, a
    host that had one keeps its value; the difference gauge and the error
    counter are not touched. *)
Theorem check_host_rejected_value
    (reference : json) (h : host) (url label : string) (w : world) (v : json) (e : exn) :
  h !! "rpc_url" = Some url →
  h !! "host" = Some label →
  Exporter.slot_reading (post_reply net (count_posts (sent w))) = Ok v →
  is_not_None v = true →
  Exporter.py_float float_of_str v = Raised e →
  Exporter.check_host net float_of_str reference h w =
  (World (sent w ++ [POST url "getSlot"])
     (Metrics (<[label := default 0 (solana_node_slot_number (registry w) !! label)]>
                 (solana_node_slot_number (registry w)))
              (solana_reference_slot_number (registry w))
              (solana_slot_difference (registry w))
              (solana_node_slot_error_count (registry w))
              (solana_reference_slot_error_count (registry w))),
   Raised e).
Proof.
  intros Hurl Hlabel Hv Hsome Hfloat. unfold Exporter.check_host.
  rewrite (dict_getitem_some _ _ _ Hurl), bind_lift_ok.
  rewrite bind_run, get_slot_number_run, Hv, Hsome.
  rewrite (dict_getitem_some _ _ _ Hlabel), !bind_lift_ok.
  unfold Exporter.labels_set, update_registry, mbind, M_bind, mret, M_ret, lift.
  rewrite Hfloat. cbn -[labels insert lookup]. do 3 f_equal.
  unfold labels. destruct (solana_node_slot_number (registry w) !! label) eqn:E; cbn.
  - by rewrite insert_id.
  - reflexivity.
Qed.

(** A round that raises ends the rounds: more fuel changes nothing. *)
Lemma run_pending_raised_is_final
    (cfg : Exporter.config) (n m : nat) (w w' : world) (e : exn) :
  Exporter.run_pending net float_of_str cfg n w = (w', Raised e) →
  Exporter.run_pending net float_of_str cfg (n + m) w = (w', Raised e).
Proof.
  revert w. induction n as [|n IH]; intros w Hn; [discriminate |].
  cbn [Exporter.run_pending Nat.add] in *. rewrite bind_run in *.
  destruct (Exporter.job net float_of_str cfg w) as [w1 [[]|e1]]; [by apply IH | done].
Qed.

(** X13.  The exporter's loop does not outlive an exception: once a job
    has raised and the top-level handler has logged it, no later round
    makes a request or updates a metric; the world stays the one the
    failing job left. *)
Theorem main_stopped_is_final
    (cfg : Exporter.config) (n m : nat) (w w' : world) (e : exn) :
  Exporter.main net float_of_str cfg n w = (w', Ok (Exporter.Stopped e)) →
  Exporter.main net float_of_str cfg (n + m) w = (w', Ok (Exporter.Stopped e)).
Proof.
  unfold Exporter.main, try_except. rewrite !bind_run. intros Hn.
  destruct (Exporter.run_pending net float_of_str cfg n w) as [w1 [[]|e1]] eqn:Hrun.
  - discriminate.
  - by rewrite (run_pending_raised_is_final cfg n m w w1 e1 Hrun).
Qed.

End ExporterEdges.

#[local] Instance same_children_at_preorder (l : string) : PreOrder (same_children_at l).
Proof.
  split.
  - by intros m.
  - intros m1 m2 m3 (Ha & Hb & Hc) (Ha' & Hb' & Hc'). repeat split; congruence.
Qed.

(** X10.  A cycle writes no child under a label that no configured host
    carries: for such a label the slot gauge, the difference gauge and the
    error counter are the same after the cycle as before, whatever the
    network answers and whether the cycle returns or raises. *)
Theorem check_node_slots_leaves_other_labels
    (net : network) (float_of_str : string → option Z)
    (cfg : Exporter.config) (w : world) (l : string) :
  (∀ h, h ∈ Exporter.hosts cfg → h !! "host" ≠ Some l) →
  same_children_at l (registry w)
    (registry (Exporter.check_node_slots net float_of_str cfg w).1).
Proof.
  intros Hl. revert w. change (preserves (same_children_at l)
    (Exporter.check_node_slots net float_of_str cfg)).
  unfold Exporter.check_node_slots.
  apply preserves_bind; [apply _ | apply preserves_get_slot_number; apply _ |].
  intros reference_slot. destruct (is_not_None reference_slot).
  - apply preserves_bind; [apply _ | |].
    + unfold Exporter.gauge_set. apply preserves_lift_bind; [apply _ |]. intros x _.
      apply preserves_update. by intros m.
    + intros _.
      apply (preserves_weaken (Exporter.evolves (Exporter.carried (Exporter.hosts cfg)))).
      * intros m m' [(_ & _ & Hframe) _]. apply Hframe.
        intros (h & Hin & Hh). by apply (Hl h).
      * apply for_each_host_evolves.
  - unfold Exporter.gauge_inc. apply preserves_update. by intros m.
Qed.

Lemma check_node_slots_leaves_other_labels_witness :
  same_children_at "z" fresh_metrics
    (registry (Exporter.check_node_slots
                 (scripted [slot_answer 1000; slot_answer 998; slot_answer 1003])
                 (λ _, None) sample_exporter_config idle).1).
Proof.
  apply (check_node_slots_leaves_other_labels
           (scripted [slot_answer 1000; slot_answer 998; slot_answer 1003])
           (λ _, None) sample_exporter_config idle "z").
  intros h Hh. cbn in Hh.
  apply elem_of_cons in Hh as [-> | Hh];
    [| apply elem_of_cons in Hh as [-> | Hh]; [| by apply not_elem_of_nil in Hh]].
  all: vm_compute; discriminate.
Defined.

Lemma run_pending_counts_reference_failures_witness :
  Exporter.run_pending (always TransportFailure) (λ _, None) sample_exporter_config 3%nat idle =
  (World [POST "http://ref:8899" "getSlot"; POST "http://ref:8899" "getSlot";
          POST "http://ref:8899" "getSlot"] (Metrics ∅ 0 ∅ ∅ 3), Ok tt).
Proof.
  refine (eq_trans
    (run_pending_counts_reference_failures (always TransportFailure) (λ _, None)
       sample_exporter_config 3%nat idle _) _).
  - intros k. reflexivity.
  - reflexivity.
Defined.

(** Reference at 1000, then host a answers with a JSON list: the cycle
    raises, the reference gauge holds. *)
Lemma check_node_slots_sets_reference_gauge_witness :
  let m' := registry
    (Exporter.check_node_slots (scripted [slot_answer 1000; answer_200 (JArr [])])
       (λ _, None) sample_exporter_config idle).1 in
  solana_reference_slot_number m' = 1000 ∧
  (Z.abs 1000 ≤ 2 ^ 53 → 1000 = 1000) ∧
  solana_reference_slot_error_count m' = 0.
Proof.
  apply (check_node_slots_sets_reference_gauge
           (scripted [slot_answer 1000; answer_200 (JArr [])])
           (λ _, None) sample_exporter_config idle 1000 1000).
  - reflexivity.
  - reflexivity.
Defined.

Lemma check_node_slots_rejected_reference_witness :
  Exporter.check_node_slots (always (answer_200 (JObj {[ "result" := JArr [] ]})))
    (λ _, None) sample_exporter_config idle =
  (World [POST "http://ref:8899" "getSlot"] fresh_metrics, Raised TypeError).
Proof.
  apply (check_node_slots_rejected_reference
           (always (answer_200 (JObj {[ "result" := JArr [] ]})))
           (λ _, None) sample_exporter_config idle (JArr []) TypeError).
  - reflexivity.
  - reflexivity.
  - reflexivity.
Defined.

Lemma check_host_rejected_value_witness :
  Exporter.check_host (always (answer_200 (JObj {[ "result" := JArr [] ]})))
    (λ _, None) (JInt 1000) host_a idle =
  (World [POST "http://a:8899" "getSlot"] (Metrics {[ "a" := 0 ]} 0 ∅ ∅ 0),
   Raised TypeError).
Proof.
  apply (check_host_rejected_value
           (always (answer_200 (JObj {[ "result" := JArr [] ]})))
           (λ _, None) (JInt 1000) host_a "http://a:8899" "a" idle (JArr []) TypeError).
  - reflexivity.
  - reflexivity.
  - reflexivity.
  - reflexivity.
  - reflexivity.
Defined.

Lemma main_stopped_is_final_witness :
  Exporter.main (always (answer_200 (JInt 5))) (λ _, None) sample_exporter_config 3%nat idle =
  (World [POST "http://ref:8899" "getSlot"] fresh_metrics,
   Ok (Exporter.Stopped AttributeError)).
Proof.
  apply (main_stopped_is_final (always (answer_200 (JInt 5))) (λ _, None)
           sample_exporter_config 1 2 idle _ AttributeError).
  reflexivity.
Defined.

(** ** Which requests the scripts make *)

Section Keeps.
Context (R : world → world → Prop) `{!PreOrder R}.

Lemma keeps_ret {A} (a : A) : keeps R (mret a).
Proof. intros w. reflexivity. Qed.

Lemma keeps_bind {A B} (c : M A) (f : A → M B) :
  keeps R c → (∀ a, keeps R (f a)) → keeps R (c ≫= f).
Proof.
  intros Hc Hf w. rewrite bind_run. specialize (Hc w).
  destruct (c w) as [w' [a|e]]; cbn in *; [| done].
  etrans; [exact Hc | apply Hf].
Qed.

Lemma keeps_lift_bind {A B} (r : result A) (f : A → M B) :
  (∀ a, r = Ok a → keeps R (f a)) → keeps R (lift r ≫= f).
Proof.
  intros Hf w. destruct r as [a|e].
  - rewrite bind_lift_ok. by apply Hf.
  - rewrite bind_lift_raised. reflexivity.
Qed.

Lemma keeps_try_except {A} (body : M A) (catches : exn → bool) (handler : exn → M A) :
  keeps R body → (∀ e, keeps R (handler e)) → keeps R (try_except body catches handler).
Proof.
  intros Hb Hh w. unfold try_except. specialize (Hb w).
  destruct (body w) as [w' [a|e]]; cbn in *; [done |].
  destruct (catches e); [| done].
  etrans; [exact Hb | apply Hh].
Qed.

Lemma keeps_for_each {A} (body : A → M unit) (l : list A) :
  (∀ x, x ∈ l → keeps R (body x)) → keeps R (for_each body l).
Proof.
  induction l as [|x l IH]; intros Hbody; cbn [for_each].
  - apply keeps_ret.
  - apply keeps_bind.
    + apply Hbody, list_elem_of_here.
    + intros _. apply IH. intros y Hy. by apply Hbody, list_elem_of_further.
Qed.

(** A relation that does not look at the registry is kept by every
    registry update. *)
Hypothesis R_registry : ∀ w m, R w (World (sent w) m).

Lemma keeps_update (f : metrics → metrics) : keeps R (update_registry f).
Proof. intros w. apply R_registry. Qed.

Lemma keeps_labels_set (fos : string → option Z) (g : gauge_vec) (l : string) (v : json) :
  keeps R (Exporter.labels_set fos g l v).
Proof.
  unfold Exporter.labels_set. apply keeps_bind; [apply keeps_update |].
  intros _. apply keeps_lift_bind. intros x _. apply keeps_update.
Qed.

Lemma keeps_labels_inc (g : gauge_vec) (l : string) :
  keeps R (Exporter.labels_inc g l).
Proof.
  unfold Exporter.labels_inc. apply keeps_bind; [apply keeps_update |].
  intros _. apply keeps_update.
Qed.

Lemma keeps_gauge_set (fos : string → option Z) (g : gauge) (v : json) :
  keeps R (Exporter.gauge_set fos g v).
Proof.
  unfold Exporter.gauge_set. apply keeps_lift_bind. intros x _. apply keeps_update.
Qed.

End Keeps.

#[local] Instance sends_only_preorder (P : request → Prop) : PreOrder (sends_only P).
Proof.
  split.
  - intros w. exists []. by rewrite app_nil_r.
  - intros w1 w2 w3 (s1 & H1 & HP1) (s2 & H2 & HP2). exists (s1 ++ s2).
    split; [by rewrite H2, H1, app_assoc | by apply Forall_app].
Qed.

Lemma sends_only_registry (P : request → Prop) (w : world) (m : metrics) :
  sends_only P w (World (sent w) m).
Proof. exists []. by rewrite app_nil_r. Qed.

Lemma sends_only_one (P : request → Prop) (w : world) (req : request) (m : metrics) :
  P req → sends_only P w (World (sent w ++ [req]) m).
Proof. intros HP. exists [req]. split; [done | by apply Forall_singleton]. Qed.

Section ExporterRequests.
Variable net : network.
Variable float_of_str : string → option Z.

Lemma get_slot_number_sends (P : request → Prop) (url : string) :
  P (POST url "getSlot") → keeps (sends_only P) (Exporter.get_slot_number net url).
Proof. intros HP w. rewrite get_slot_number_run. by apply sends_only_one. Qed.

Lemma check_host_sends (P : request → Prop) (reference : json) (h : host) :
  (∀ url, h !! "rpc_url" = Some url → P (POST url "getSlot")) →
  keeps (sends_only P) (Exporter.check_host net float_of_str reference h).
Proof.
  intros HP. unfold Exporter.check_host.
  apply keeps_lift_bind; [apply _ |]. intros url Hurl.
  assert (P (POST url "getSlot")) as HPurl.
  { apply HP. unfold dict_getitem in Hurl. destruct (h !! "rpc_url"); by simplify_eq. }
  apply keeps_bind; [apply _ | by apply get_slot_number_sends |].
  intros node_slot. destruct (is_not_None node_slot).
  - apply keeps_lift_bind; [apply _ |]. intros l _.
    apply keeps_bind; [apply _ | apply keeps_labels_set; [apply _ | apply sends_only_registry] |].
    intros _. apply keeps_lift_bind; [apply _ |]. intros d _.
    apply keeps_lift_bind; [apply _ |]. intros l' _.
    apply keeps_bind; [apply _ | apply keeps_labels_set; [apply _ | apply sends_only_registry] |].
    intros _. apply keeps_lift_bind; [apply _ |]. intros. apply keeps_ret; apply _.
  - apply keeps_lift_bind; [apply _ |]. intros l0 _.
    apply keeps_lift_bind; [apply _ |]. intros l _.
    apply keeps_labels_inc; [apply _ | apply sends_only_registry].
Qed.

Lemma check_node_slots_sends (cfg : Exporter.config) :
  keeps (sends_only (exporter_may_send cfg))
    (Exporter.check_node_slots net float_of_str cfg).
Proof.
  unfold Exporter.check_node_slots.
  apply keeps_bind; [apply _ | |].
  - apply get_slot_number_sends. eexists. split; [done | by left].
  - intros reference_slot. destruct (is_not_None reference_slot).
    + apply keeps_bind; [apply _ | apply keeps_gauge_set; [apply _ | apply sends_only_registry] |].
      intros _. apply keeps_for_each; [apply _ |]. intros h Hh.
      apply check_host_sends. intros url Hurl.
      eexists. split; [done |]. right. by exists h.
    + unfold Exporter.gauge_inc. apply keeps_update. apply sends_only_registry.
Qed.

(** X14.  The exporter talks to configured endpoints only.  Through any
    number of rounds, whatever the network answers and however the rounds
    end, every request the script makes is a [getSlot] POST to the
    reference endpoint or to the RPC URL of a configured host: it never
    sends a GET and never calls another method. *)
Theorem exporter_sends_configured_requests_only
    (cfg : Exporter.config) (n : nat) (w : world) :
  ∃ seg, sent (Exporter.main net float_of_str cfg n w).1 = sent w ++ seg ∧
         Forall (exporter_may_send cfg) seg.
Proof.
  revert w. change (keeps (sends_only (exporter_may_send cfg))
                      (Exporter.main net float_of_str cfg n)).
  unfold Exporter.main.
  apply keeps_try_except; [apply _ | | intros e; apply keeps_ret; apply _].
  apply keeps_bind; [apply _ | | intros; apply keeps_ret; apply _].
  induction n as [|n IH]; cbn [Exporter.run_pending].
  - apply keeps_ret; apply _.
  - apply keeps_bind; [apply _ | apply check_node_slots_sends | by intros _].
Qed.

End ExporterRequests.

Section HeartbeatRequests.
Variable net : network.

Lemma job_host_sends (P : request → Prop) (h : host) :
  (∀ url, h !! "rpc_url" = Some url → P (POST url "getHealth")) →
  (∀ url, h !! "heartbeat_endpoint" = Some url → P (GET url)) →
  keeps (sends_only P)
    (healthy ← Heartbeat.check_rpc_call net h;
     if healthy : bool then
       endpoint ← lift (dict_getitem h "heartbeat_endpoint");
       Heartbeat.send_heartbeat net endpoint
     else mret tt).
Proof.
  intros Hpost Hget. apply keeps_bind; [apply _ | |].
  - intros w. destruct (h !! "rpc_url") as [url|] eqn:Hurl.
    + rewrite (check_rpc_call_run _ _ _ _ Hurl). apply sends_only_one. by apply Hpost.
    + rewrite (check_rpc_call_no_url _ _ _ Hurl). reflexivity.
  - intros [|]; [| apply keeps_ret; apply _].
    apply keeps_lift_bind; [apply _ |]. intros url Hurl w.
    rewrite send_heartbeat_run. apply sends_only_one. apply Hget.
    unfold dict_getitem in Hurl. destruct (h !! "heartbeat_endpoint"); by simplify_eq.
Qed.

Lemma heartbeat_job_sends (cfg : Heartbeat.config) :
  keeps (sends_only (heartbeat_may_send cfg)) (Heartbeat.job net cfg).
Proof.
  unfold Heartbeat.job. apply keeps_for_each; [apply _ |]. intros h Hh.
  apply job_host_sends.
  - intros url Hurl. exists h, url. split; [done |]. by left.
  - intros url Hurl. exists h, url. split; [done |]. by right.
Qed.

(** X15.  The heartbeat script talks to configured endpoints only.
    Through the first job and any number of rounds, whatever the network
    answers and however the script ends, every request it makes is a
    [getHealth] POST to the RPC URL of a configured host or a GET to the
    heartbeat endpoint of a configured host. *)
Theorem heartbeat_sends_configured_requests_only
    (cfg : Heartbeat.config) (n : nat) (w : world) :
  ∃ seg, sent (Heartbeat.main net cfg n w).1 = sent w ++ seg ∧
         Forall (heartbeat_may_send cfg) seg.
Proof.
  revert w. change (keeps (sends_only (heartbeat_may_send cfg)) (Heartbeat.main net cfg n)).
  unfold Heartbeat.main.
  apply keeps_bind; [apply _ | apply heartbeat_job_sends |]. intros _.
  induction n as [|n IH]; cbn [Heartbeat.forever].
  - apply keeps_ret; apply _.
  - apply keeps_bind; [apply _ | apply heartbeat_job_sends | by intros _].
Qed.

End HeartbeatRequests.

(** ** No retries *)

(** A loop whose body makes at most one POST per turn makes at most as
    many POSTs as it has turns. *)
Lemma for_each_posts_bound {A} (body : A → M unit) (l : list A) (w : world) :
  (∀ x w, (count_posts (sent (body x w).1) ≤ count_posts (sent w) + 1)%nat) →
  (count_posts (sent (for_each body l w).1) ≤ count_posts (sent w) + length l)%nat.
Proof.
  intros Hbody. revert w. induction l as [|x l IH]; intros w.
  - cbn. lia.
  - cbn [for_each length]. rewrite bind_run. specialize (Hbody x w).
    destruct (body x w) as [w' [[]|e]]; cbn [fst] in *.
    + specialize (IH w'). lia.
    + lia.
Qed.

#[local] Instance same_log_preorder : PreOrder same_log.
Proof.
  split.
  - by intros w.
  - intros w1 w2 w3 H1 H2. unfold same_log in *. congruence.
Qed.

Section Retries.
Variable net : network.
Variable float_of_str : string → option Z.

Lemma job_host_posts_bound (h : host) (w : world) :
  (count_posts
     (sent ((healthy ← Heartbeat.check_rpc_call net h;
             if healthy : bool then
               endpoint ← lift (dict_getitem h "heartbeat_endpoint");
               Heartbeat.send_heartbeat net endpoint
             else mret tt) w).1)
   ≤ count_posts (sent w) + 1)%nat.
Proof.
  rewrite bind_run. destruct (h !! "rpc_url") as [url|] eqn:Hurl.
  - rewrite (check_rpc_call_run _ _ _ _ Hurl).
    destruct (Heartbeat.health_reading h _) as [[|] | e].
    + destruct (dict_getitem h "heartbeat_endpoint") as [hb | e].
      * rewrite bind_lift_ok, send_heartbeat_run. cbn -[count_posts].
        rewrite count_posts_snoc_get, count_posts_snoc_post. lia.
      * rewrite bind_lift_raised. cbn -[count_posts]. rewrite count_posts_snoc_post. lia.
    + cbn -[count_posts]. rewrite count_posts_snoc_post. lia.
    + cbn -[count_posts]. rewrite count_posts_snoc_post. lia.
  - rewrite (check_rpc_call_no_url _ _ _ Hurl). cbn. lia.
Qed.

(** X16.  The heartbeat cycle never retries a probe: whatever the
    network answers and whatever the config holds, one cycle makes at most
    one POST per configured host. *)
Theorem heartbeat_job_probes_each_host_at_most_once
    (cfg : Heartbeat.config) (w : world) :
  (count_posts (sent (Heartbeat.job net cfg w).1)
   ≤ count_posts (sent w) + length (Heartbeat.hosts cfg))%nat.
Proof.
  unfold Heartbeat.job. apply for_each_posts_bound. intros h w'.
  apply job_host_posts_bound.
Qed.

Lemma check_host_posts_bound (reference : json) (h : host) (w : world) :
  (count_posts (sent (Exporter.check_host net float_of_str reference h w).1)
   ≤ count_posts (sent w) + 1)%nat.
Proof.
  unfold Exporter.check_host.
  destruct (dict_getitem h "rpc_url") as [url | e].
  - rewrite bind_lift_ok, bind_run, get_slot_number_run.
    destruct (Exporter.slot_reading _) as [node_slot | e]; cbn [fst sent].
    + set (w1 := World _ _).
      assert (same_log w1
        ((if is_not_None node_slot
          then
            label ← lift (dict_getitem h "host");
            Exporter.labels_set float_of_str NODE_SLOT_NUMBER label node_slot ;;
            slot_difference ← lift (py_sub reference node_slot);
            label ← lift (dict_getitem h "host");
            Exporter.labels_set float_of_str SLOT_DIFFERENCE label slot_difference ;;
            label ← lift (dict_getitem h "host");
            mret tt
          else
            label ← lift (dict_getitem h "host");
            label ← lift (dict_getitem h "host");
            Exporter.labels_inc NODE_SLOT_NUMBER_ERROR_COUNT label) w1).1) as Hsame.
      { revert w1. generalize (World (sent w ++ [POST url "getSlot"]) (registry w)).
        change (keeps same_log
          (if is_not_None node_slot
           then
             label ← lift (dict_getitem h "host");
             Exporter.labels_set float_of_str NODE_SLOT_NUMBER label node_slot ;;
             slot_difference ← lift (py_sub reference node_slot);
             label ← lift (dict_getitem h "host");
             Exporter.labels_set float_of_str SLOT_DIFFERENCE label slot_difference ;;
             label ← lift (dict_getitem h "host");
             mret tt
           else
             label ← lift (dict_getitem h "host");
             label ← lift (dict_getitem h "host");
             Exporter.labels_inc NODE_SLOT_NUMBER_ERROR_COUNT label)).
        destruct (is_not_None node_slot).
        - apply keeps_lift_bind; [apply _ |]. intros l _.
          apply keeps_bind; [apply _ | by apply keeps_labels_set; [apply _ |] |].
          intros _. apply keeps_lift_bind; [apply _ |]. intros d _.
          apply keeps_lift_bind; [apply _ |]. intros l' _.
          apply keeps_bind; [apply _ | by apply keeps_labels_set; [apply _ |] |].
          intros _. apply keeps_lift_bind; [apply _ |]. intros. apply keeps_ret; apply _.
        - apply keeps_lift_bind; [apply _ |]. intros l0 _.
          apply keeps_lift_bind; [apply _ |]. intros l _.
          by apply keeps_labels_inc; [apply _ |]. }
      unfold same_log in Hsame. rewrite Hsame. subst w1. cbn [sent].
      rewrite count_posts_snoc_post. lia.
    + rewrite count_posts_snoc_post. lia.
  - rewrite bind_lift_raised. cbn. lia.
Qed.

(** X17.  The exporter's cycle never retries a probe: whatever the
    network answers and whatever the config holds, one cycle makes at most
    one POST to the reference and one per configured host. *)
Theorem check_node_slots_probes_each_host_at_most_once
    (cfg : Exporter.config) (w : world) :
  (count_posts (sent (Exporter.check_node_slots net float_of_str cfg w).1)
   ≤ count_posts (sent w) + 1 + length (Exporter.hosts cfg))%nat.
Proof.
  unfold Exporter.check_node_slots. rewrite bind_run, get_slot_number_run.
  destruct (Exporter.slot_reading _) as [reference_slot | e]; cbn [fst sent].
  - destruct (is_not_None reference_slot).
    + rewrite bind_run. unfold Exporter.gauge_set at 1.
      destruct (Exporter.py_float float_of_str reference_slot) as [x | e].
      * rewrite bind_lift_ok. unfold update_registry at 1. cbn [sent registry].
        set (w1 := World _ _).
        pose proof (for_each_posts_bound
          (Exporter.check_host net float_of_str reference_slot) (Exporter.hosts cfg) w1
          (check_host_posts_bound reference_slot)) as Hb.
        subst w1. cbn [sent] in Hb. rewrite count_posts_snoc_post in Hb. lia.
      * rewrite bind_lift_raised. cbn [fst sent]. rewrite count_posts_snoc_post. lia.
    + unfold Exporter.gauge_inc, update_registry. cbn [fst sent].
      rewrite count_posts_snoc_post. lia.
  - rewrite count_posts_snoc_post. lia.
Qed.

(** X18.  A host answer whose ["result"] is a string that [float] reads
    as the number [z] moves the slot gauge to [z] and then raises
    [TypeError] at [reference_slot - node_slot]: the host's difference
    gauge keeps its former value, out of step with the slot gauge. *)
Theorem check_host_numeral_string
    (reference : json) (h : host) (url label : string) (w : world) (s : string) (z : Z) :
  h !! "rpc_url" = Some url →
  h !! "host" = Some label →
  Exporter.slot_reading (post_reply net (count_posts (sent w))) = Ok (JStr s) →
  float_of_str s = Some z →
  Exporter.check_host net float_of_str reference h w =
  (World (sent w ++ [POST url "getSlot"])
     (Metrics (<[label := z]> (solana_node_slot_number (registry w)))
              (solana_reference_slot_number (registry w))
              (solana_slot_difference (registry w))
              (solana_node_slot_error_count (registry w))
              (solana_reference_slot_error_count (registry w))),
   Raised TypeError).
Proof.
  intros Hurl Hlabel Hv Hfloat. unfold Exporter.check_host.
  rewrite (dict_getitem_some _ _ _ Hurl), bind_lift_ok.
  rewrite bind_run, get_slot_number_run, Hv. cbn [is_not_None].
  rewrite (dict_getitem_some _ _ _ Hlabel), !bind_lift_ok.
  unfold Exporter.labels_set, update_registry, mbind, M_bind, mret, M_ret, lift.
  cbn -[labels insert lookup]. rewrite Hfloat.
  unfold py_sub. destruct (as_int reference); cbn -[labels insert lookup];
    by rewrite insert_labels.
Qed.

End Retries.

Lemma check_host_numeral_string_witness :
  Exporter.check_host (always (answer_200 (JObj {[ "result" := JStr "998" ]})))
    (λ s, if String.eqb s "998" then Some 998 else None) (JInt 1000) host_a idle =
  (World [POST "http://a:8899" "getSlot"] (Metrics {[ "a" := 998 ]} 0 ∅ ∅ 0),
   Raised TypeError).
Proof.
  apply (check_host_numeral_string
           (always (answer_200 (JObj {[ "result" := JStr "998" ]})))
           (λ s, if String.eqb s "998" then Some 998 else None) (JInt 1000)
           host_a "http://a:8899" "a" idle "998" 998).
  - reflexivity.
  - reflexivity.
  - reflexivity.
  - reflexivity.
Defined.
